(** * Z9CoachLite: the check-in lifecycle of [app.py]

    A shallow embedding of the helpers and of the "Analyze My Day" handler of
    [src/app.py], with the properties its specification states about them.

    Modelling conventions.
    - A Python [float] is an exact rational ([Q]); comparisons of floats are
      the decidable comparisons of [Q], and results are compared with [==].
      The sliders of the form only produce the integers 0, 5, ..., 100, and
      on those the two scores computed in binary64 are exactly the
      rationals of this model ([binary64_scores_exact]).
    - A Python [dict] is an association list in insertion order (iteration
      order of a dict is its insertion order, and [max] depends on it).
    - A call that can raise returns a [result]. *)

From Stdlib Require Import ZArith QArith Qabs Qround List String Ascii Bool.
From Stdlib Require Import DecimalString DecimalPos DecimalN.
From Stdlib Require Import Lia Lqa Permutation.
From Stdlib Require Import Qpower Uint63 PrimFloat SpecFloat FloatOps.
Import ListNotations.

(** ** Python primitives *)

Module Py.

(** [a < b] on floats. *)
Definition Qltb (a b : Q) : bool := negb (Qle_bool b a).

(** The builtin [sum]: a left fold that starts from 0. *)
Definition sum (vals : list Q) : Q := fold_left Qplus vals 0.

(** The builtin [max(a, b)]: [b] only when it is strictly greater. *)
Definition max (a b : Q) : Q := if Qltb a b then b else a.

(** The builtin [min(a, b)]: [b] only when it is strictly smaller. *)
Definition min (a b : Q) : Q := if Qltb b a then b else a.

(** [len(x)] as a float divisor. *)
Definition len {A} (l : list A) : Q := inject_Z (Z.of_nat (List.length l)).


(** Exceptions the modelled code can meet. *)
Inductive exn : Type :=
| AttributeError | TypeError | ValueError | KeyError | OSError
| JSONDecodeError | OtherError (msg : string).

Inductive result (A : Type) : Type :=
| Ok (a : A)
| Raise (e : exn).
Arguments Ok {A} a.
Arguments Raise {A} e.

Definition bind {A B} (m : result A) (k : A -> result B) : result B :=
  match m with
  | Ok a => k a
  | Raise e => Raise e
  end.

(** [try: m  except Exception: h] *)
Definition try_except {A} (m h : result A) : result A :=
  match m with
  | Ok a => Ok a
  | Raise _ => h
  end.

End Py.

Notation "x <- m ;; k" := (Py.bind m (fun x => k))
  (at level 61, m at next level, right associativity).

(** A [Dict[str, V]] in insertion order. *)
Definition dict (V : Type) : Type := list (string * V).

Section Dict.
Context {V : Type}.

Definition dict_keys (d : dict V) : list string := map fst d.
Definition dict_values (d : dict V) : list V := map snd d.

(** [d.get(k)] *)
Fixpoint dict_get (d : dict V) (k : string) : option V :=
  match d with
  | [] => None
  | (k', v) :: rest => if String.eqb k k' then Some v else dict_get rest k
  end.

(** [d.get(k, default)] *)
Definition dict_get_or (d : dict V) (k : string) (default : V) : V :=
  match dict_get d k with
  | Some v => v
  | None => default
  end.

End Dict.

(** ** Score calculator (app.py, lines 98-116) *)

Definition compute_trait_score (traits : dict Q) : Q :=
  match traits with
  | [] => 0
  | _ => Py.sum (dict_values traits) / Py.len traits
  end.

Definition compute_harmony_ratio (traits : dict Q) : Q :=
  match traits with
  | [] => 0
  | _ =>
      let vals := dict_values traits in
      let mean := Py.sum vals / Py.len vals in
      if Qeq_bool mean 0 then 0
      else
        let variance :=
          Py.sum (map (fun v => (v - mean) ^ 2) vals) / Py.len vals in
        let raw := Py.max 0 (100 - variance * 2) in
        Py.max 0 (Py.min 100 raw)
  end.

(** The four-key trait set the form builds (line 201). *)
Definition disc (d i s c : Q) : dict Q :=
  [("D"%string, d); ("I"%string, i); ("S"%string, s); ("C"%string, c)].

(** *** The formulas in the specification's words *)

Module SpecWords.
Definition total (vals : list Q) : Q := fold_right Qplus 0 vals.

Definition arithmetic_mean (vals : list Q) : Q :=
  total vals / inject_Z (Z.of_nat (List.length vals)).

(** Mean of the squared deviations from the mean. *)
Definition population_variance (vals : list Q) : Q :=
  let m := arithmetic_mean vals in
  arithmetic_mean (map (fun v => (v - m) * (v - m)) vals).

Definition clamp (lo hi x : Q) : Q :=
  if Qle_bool x lo then lo else if Qle_bool hi x then hi else x.

End SpecWords.

(** ** Text helpers *)

Definition dquote : ascii := ascii_of_nat 34.
Definition backslash : ascii := ascii_of_nat 92.

(** Decimal digits of a natural number, as [str(n)] prints them. *)
Definition dec_of_N (n : N) : string :=
  DecimalString.NilZero.string_of_uint (N.to_uint n).

(** Round a non-negative rational to the nearest integer, ties to even. *)
Definition round_half_even (q : Q) : Z :=
  let f := Qfloor q in
  match Qcompare (q - inject_Z f) (1 # 2) with
  | Lt => f
  | Gt => (f + 1)%Z
  | Eq => if Z.even f then f else (f + 1)%Z
  end.


(** The format specification [.1f]: sign, integer part, one decimal. *)
Definition format_1f (q : Q) : string :=
  let tenths := Z.to_N (round_half_even (Qabs q * 10)) in
  ((if Py.Qltb q 0 then "-" else EmptyString)
     ++ dec_of_N (tenths / 10) ++ "." ++ dec_of_N (tenths mod 10))%string.


(** ** Trait breakdown (app.py, lines 67-95) *)


(** [d[k]] *)
Definition dict_item {V} (d : dict V) (k : string) : Py.result V :=
  match dict_get d k with
  | Some v => Py.Ok v
  | None => Py.Raise Py.KeyError
  end.








(** ** Stage suggestion, local fallback (app.py, lines 31-42) *)

(** [a > b] between two results of [dict.get]: [None] does not compare. *)
Definition py_gt (a b : option Q) : Py.result bool :=
  match a, b with
  | Some x, Some y => Py.Ok (Py.Qltb y x)
  | _, _ => Py.Raise Py.TypeError
  end.

(** The loop of the builtin [max(iterable, key=...)]: the current maximum is
    replaced only by a strictly greater key. *)
Fixpoint max_loop {A} (key : A -> option Q) (best : A) (best_key : option Q)
    (rest : list A) : Py.result A :=
  match rest with
  | [] => Py.Ok best
  | x :: rest' =>
      let k := key x in
      gt <- py_gt k best_key ;;
      if (gt : bool) then max_loop key x k rest'
      else max_loop key best best_key rest'
  end.

Definition py_max_by {A} (items : list A) (key : A -> option Q)
  : Py.result A :=
  match items with
  | [] => Py.Raise Py.ValueError
  | x :: rest => max_loop key x (key x) rest
  end.

Definition stage_mapping : dict string :=
  [("D", "Stage 4 — Initiative vs. Guilt");
   ("I", "Stage 5 — Identity vs. Role Confusion");
   ("S", "Stage 6 — Intimacy vs. Isolation");
   ("C", "Stage 7 — Generativity vs. Stagnation")]%string.

Definition stage_default : string :=
  "Stage 5 — Identity vs. Role Confusion"%string.

Definition map_disc_to_stage (d i s c : Q) : Py.result string :=
  let traits := disc d i s c in
  dominant <- py_max_by (dict_keys traits) (dict_get traits) ;;
  Py.Ok (dict_get_or stage_mapping dominant stage_default).

(** ** Python values that JSON carries *)

Unset Elimination Schemes.
Inductive pyval : Type :=
| PNone
| PBool (b : bool)
| PInt (z : Z)
| PFloat (q : Q)
| PStr (s : string)
| PList (items : list pyval)
| PDict (members : list (string * pyval)).
Set Elimination Schemes.

(** Structural induction that also reaches list items and dict members. *)
Fixpoint pyval_ind (P : pyval -> Prop)
    (HNone : P PNone)
    (HBool : forall b, P (PBool b))
    (HInt : forall z, P (PInt z))
    (HFloat : forall q, P (PFloat q))
    (HStr : forall s, P (PStr s))
    (HList : forall items, Forall P items -> P (PList items))
    (HDict : forall members,
        Forall (fun kv => P (snd kv)) members -> P (PDict members))
    (v : pyval) {struct v} : P v :=
  let rec := pyval_ind P HNone HBool HInt HFloat HStr HList HDict in
  match v with
  | PNone => HNone
  | PBool b => HBool b
  | PInt z => HInt z
  | PFloat q => HFloat q
  | PStr s => HStr s
  | PList items =>
      HList items
        ((fix go (l : list pyval) : Forall P l :=
            match l with
            | [] => Forall_nil P
            | x :: l' => Forall_cons (P := P) x (rec x) (go l')
            end) items)
  | PDict members =>
      HDict members
        ((fix go (l : list (string * pyval))
            : Forall (fun kv => P (snd kv)) l :=
            match l with
            | [] => Forall_nil _
            | kv :: l' =>
                Forall_cons (P := fun kv => P (snd kv)) kv (rec (snd kv))
                  (go l')
            end) members)
  end.

(** No key occurs twice in a list of keys. *)
Fixpoint distinct_keys (ks : list string) : bool :=
  match ks with
  | [] => true
  | k :: rest => negb (existsb (String.eqb k) rest) && distinct_keys rest
  end.

(** A value that Python can hold: every dict in it has distinct keys. *)
Fixpoint pyval_wf (v : pyval) : bool :=
  match v with
  | PList items => forallb pyval_wf items
  | PDict members =>
      distinct_keys (map fst members)
      && forallb (fun kv => pyval_wf (snd kv)) members
  | _ => true
  end.

(** ** Check-in store (app.py, lines 47-64) *)

(** What the path [data/lite_checkins.json] holds: nothing, something that
    [read_text(encoding="utf-8")] cannot return (bytes that do not decode,
    for instance), or a text. *)
Inductive file_state : Type :=
| Missing
| Unreadable
| Text (contents : string).

Definition file_exists (f : file_state) : bool :=
  match f with
  | Missing => false
  | _ => true
  end.

Definition read_text (f : file_state) : Py.result string :=
  match f with
  | Text contents => Py.Ok contents
  | _ => Py.Raise Py.OSError
  end.

(** [write_text] replaces the contents whatever the file held. A write
    that fails is not modelled: the code does not handle it either. *)
Definition write_text (contents : string) (f : file_state) : file_state :=
  Text contents.

Section Store.
(** The JSON codec of the Python library: [json.dumps(v, indent=2)] and
    [json.loads(text)]. *)
Variable json_dumps : pyval -> string.
Variable json_loads : string -> Py.result pyval.

Definition load_checkins (f : file_state) : Py.result pyval :=
  if negb (file_exists f) then Py.Ok (PList [])
  else
    Py.try_except
      (text <- read_text f ;; json_loads text)
      (Py.Ok (PList [])).

(** [entries.append(entry)] exists on lists only. *)
Definition list_append (entries entry : pyval) : Py.result pyval :=
  match entries with
  | PList items => Py.Ok (PList (items ++ [entry]))
  | _ => Py.Raise Py.AttributeError
  end.

Definition save_checkin (entry : pyval) (f : file_state)
  : Py.result unit * file_state :=
  match (entries <- load_checkins f ;; list_append entries entry) with
  | Py.Ok entries' => (Py.Ok tt, write_text (json_dumps entries') f)
  | Py.Raise e => (Py.Raise e, f)
  end.
End Store.

(** ** The form (app.py, lines 153-218) *)

Inductive mood : Type :=
| Drained | Neutral | Steady | Energized | FocusedInspired.

(** The option text of the mood select box. *)
Definition mood_label (m : mood) : string :=
  match m with
  | Drained => "😔 Drained"
  | Neutral => "😐 Neutral"
  | Steady => "🙂 Steady"
  | Energized => "😄 Energized"
  | FocusedInspired => "🧠 Focused & Inspired"
  end.

(** [mood_score_map[mood_label]], option by option. *)
Definition mood_score (m : mood) : Z :=
  match m with
  | Drained => 1
  | Neutral => 2
  | Steady => 3
  | Energized => 4
  | FocusedInspired => 5
  end.

Definition skip : string := "(skip)".

Record form : Type := {
  mood_choice : mood;
  mood_notes : string;
  d_val : Z;
  i_val : Z;
  s_val : Z;
  c_val : Z;
  perceived_stage : string
}.

(** A slider position: 0 to 100 in steps of 5. *)
Definition slider_value (z : Z) : Prop :=
  (0 <= z <= 100)%Z /\ (z mod 5 = 0)%Z.

(** [None if perceived_stage == "(skip)" else perceived_stage] *)
Definition stage_or_none (perceived : string) : option string :=
  if String.eqb perceived skip then None else Some perceived.

(** ** The analyze action (app.py, lines 224-259) *)

(** The optional [z9_core.analysis.analyze_profile]. *)
Definition analyzer : Type :=
  Q -> Q -> Q -> Q -> option string -> Py.result pyval.

(** The optional [z9_core.stage.map_disc_to_stage]. *)
Definition stage_mapper : Type := Q -> Q -> Q -> Q -> Py.result string.

(** What surrounds a click: the optional collaborators of [z9_core], the
    clock and the store file. *)
Record world : Type := {
  analyze_profile : option analyzer;
  core_stage : option stage_mapper;
  utcnow_iso : string;
  checkin_file : file_state
}.

(** Lines 248-258: the record that is logged. *)
Definition make_entry (timestamp : string) (f : form) (traits : dict Q)
    (trait_score harmony_ratio : Q) (auto_stage : string) : pyval :=
  PDict
    [("timestamp", PStr timestamp);
     ("mood_label", PStr (mood_label (mood_choice f)));
     ("mood_score", PInt (mood_score (mood_choice f)));
     ("mood_notes", PStr (mood_notes f));
     ("traits", PDict (map (fun kv => (fst kv, PFloat (snd kv))) traits));
     ("trait_score", PFloat trait_score);
     ("harmony_ratio", PFloat harmony_ratio);
     ("perceived_stage",
       match stage_or_none (perceived_stage f) with
       | None => PNone
       | Some stage => PStr stage
       end);
     ("auto_stage", PStr auto_stage)]%string.

Section Analyze.
Variable json_dumps : pyval -> string.
Variable json_loads : string -> Py.result pyval.
(** [float(s)] on a string, a builtin of the interpreter. *)
Variable float_of_str : string -> Py.result Q.

(** The builtin [float(x)]. *)
Definition py_float (x : pyval) : Py.result Q :=
  match x with
  | PFloat q => Py.Ok q
  | PInt z => Py.Ok (inject_Z z)
  | PBool b => Py.Ok (if b then 1 else 0)
  | PStr s => float_of_str s
  | PNone | PList _ | PDict _ => Py.Raise Py.TypeError
  end.

(** [profile.get(key, default)]: only a mapping has [get]. *)
Definition profile_get (profile : pyval) (key : string) (default : pyval)
  : Py.result pyval :=
  match profile with
  | PDict members => Py.Ok (dict_get_or members key default)
  | _ => Py.Raise Py.AttributeError
  end.

(** Lines 226-241: the profile, the composite score and the harmony
    ratio. *)
Definition analysis_step (analyze_profile : option analyzer)
    (traits : dict Q) (d i s c : Q) (perceived : string)
  : Py.result (pyval * Q * Q) :=
  let local :=
    Py.Ok (PDict [], compute_trait_score traits,
           compute_harmony_ratio traits) in
  match analyze_profile with
  | Some analyze =>
      Py.try_except
        (profile <- analyze d i s c (stage_or_none perceived) ;;
         ts <- profile_get profile "trait_score" (PFloat 0) ;;
         trait_score <- py_float ts ;;
         hr <- profile_get profile "harmony_ratio" (PFloat 0) ;;
         harmony_ratio <- py_float hr ;;
         Py.Ok (profile, trait_score, harmony_ratio))
        local
  | None => local
  end.

(** Lines 226-258: the record a click assembles. The stage mapper is the
    one of [z9_core] when it was imported, the local fallback otherwise;
    an error of the external mapper is not caught. *)
Definition assemble_entry (w : world) (f : form) : Py.result pyval :=
  let d := inject_Z (d_val f) in
  let i := inject_Z (i_val f) in
  let s := inject_Z (s_val f) in
  let c := inject_Z (c_val f) in
  let traits := disc d i s c in
  analysed <-
    analysis_step (analyze_profile w) traits d i s c (perceived_stage f) ;;
  let '(_, trait_score, harmony_ratio) := analysed in
  let mapper :=
    match core_stage w with
    | Some external => external
    | None => map_disc_to_stage
    end in
  auto_stage <- mapper d i s c ;;
  Py.Ok (make_entry (utcnow_iso w) f traits trait_score harmony_ratio
           auto_stage).

(** Lines 224-259: assemble the record and log it. The result is the
    logged record together with the store file afterwards. *)
Definition analyze_and_log (w : world) (f : form)
  : Py.result pyval * file_state :=
  match assemble_entry w f with
  | Py.Raise e => (Py.Raise e, checkin_file w)
  | Py.Ok entry =>
      match save_checkin json_dumps json_loads entry (checkin_file w) with
      | (Py.Ok _, file) => (Py.Ok entry, file)
      | (Py.Raise e, file) => (Py.Raise e, file)
      end
  end.
End Analyze.

(** The value stored under [key] in a logged record, when it is a float. *)
Definition entry_float (entry : pyval) (key : string) : option Q :=
  match entry with
  | PDict members =>
      match dict_get members key with
      | Some (PFloat q) => Some q
      | _ => None
      end
  | _ => None
  end.

(** ** Recent history (app.py, lines 307-309) *)

(** The slice [l[i:]]: a negative start counts from the end and both ends
    are clipped to the list. *)
Definition slice_from {A} (i : Z) (l : list A) : list A :=
  let n := Z.of_nat (List.length l) in
  let start := if (i <? 0)%Z then Z.max 0 (n + i) else Z.min i n in
  skipn (Z.to_nat start) l.

(** [if history: last_items = list(reversed(history[-7:]))]; nothing is
    listed for an empty history. *)
Definition last_items {A} (history : list A) : list A :=
  match history with
  | [] => []
  | _ => rev (slice_from (-7) history)
  end.

(** ** A reference JSON codec

    A printer and a parser over [pyval] in JSON syntax (compact, no blanks),
    with one extension: a float, which the model holds as a fraction, is
    written [numerator/denominator]. It instantiates the codec that the
    store is parameterised by. *)

Module RefJson.
Open Scope string_scope.

Definition is_digit (c : ascii) : bool :=
  (48 <=? nat_of_ascii c)%nat && (nat_of_ascii c <=? 57)%nat.

(** The longest prefix of digits, and what follows it. *)
Fixpoint span_digits (s : string) : string * string :=
  match s with
  | String c rest =>
      if is_digit c then
        let (digits, rest') := span_digits rest in (String c digits, rest')
      else (EmptyString, s)
  | EmptyString => (EmptyString, EmptyString)
  end.

Definition parse_N (s : string) : option (N * string) :=
  let (digits, rest) := span_digits s in
  match NilZero.uint_of_string digits with
  | Some u => Some (N.of_uint u, rest)
  | None => None
  end.

Definition print_Z (z : Z) : string :=
  match z with
  | Zneg p => "-" ++ dec_of_N (Npos p)
  | _ => dec_of_N (Z.to_N z)
  end.

Definition parse_Z (s : string) : option (Z * string) :=
  match s with
  | String c rest =>
      if Ascii.eqb c "-" then
        match parse_N rest with
        | Some (n, rest') => Some ((- Z.of_N n)%Z, rest')
        | None => None
        end
      else
        match parse_N s with
        | Some (n, rest') => Some (Z.of_N n, rest')
        | None => None
        end
  | EmptyString => None
  end.

(** An integer, or a fraction when a slash follows. *)
Definition parse_number (s : string) : option (pyval * string) :=
  match parse_Z s with
  | Some (z, String c rest) =>
      if Ascii.eqb c "/" then
        match parse_N rest with
        | Some (Npos den, rest') => Some (PFloat (z # den), rest')
        | _ => None
        end
      else Some (PInt z, String c rest)
  | Some (z, EmptyString) => Some (PInt z, EmptyString)
  | None => None
  end.

(** Quotes and backslashes are escaped with a backslash. *)
Fixpoint escape (s : string) : string :=
  match s with
  | EmptyString => EmptyString
  | String c rest =>
      if Ascii.eqb c dquote || Ascii.eqb c backslash then
        String backslash (String c (escape rest))
      else String c (escape rest)
  end.

Definition print_str (s : string) : string :=
  String dquote (escape s ++ String dquote EmptyString).

(** The text after an opening quote, up to the closing one. *)
Fixpoint parse_str (s : string) : option (string * string) :=
  match s with
  | EmptyString => None
  | String c rest =>
      if Ascii.eqb c dquote then Some (EmptyString, rest)
      else if Ascii.eqb c backslash then
        match rest with
        | String c' rest' =>
            match parse_str rest' with
            | Some (str, after) => Some (String c' str, after)
            | None => None
            end
        | EmptyString => None
        end
      else
        match parse_str rest with
        | Some (str, after) => Some (String c str, after)
        | None => None
        end
  end.

(** What follows the first item of a list: the other items, each after a
    comma, and the closing bracket. *)
Fixpoint print_items (item : pyval -> string) (l : list pyval) : string :=
  match l with
  | [] => "]"
  | y :: l' => "," ++ item y ++ print_items item l'
  end.

Definition print_member (value : pyval -> string) (m : string * pyval)
  : string :=
  print_str (fst m) ++ ":" ++ value (snd m).

Fixpoint print_members (value : pyval -> string)
    (l : list (string * pyval)) : string :=
  match l with
  | [] => "}"
  | m :: l' => "," ++ print_member value m ++ print_members value l'
  end.

Fixpoint print (v : pyval) : string :=
  match v with
  | PNone => "null"
  | PBool true => "true"
  | PBool false => "false"
  | PInt z => print_Z z
  | PFloat q => print_Z (Qnum q) ++ "/" ++ dec_of_N (Npos (Qden q))
  | PStr s => print_str s
  | PList [] => "[]"
  | PList (x :: items) => "[" ++ print x ++ print_items print items
  | PDict [] => "{}"
  | PDict (m :: members) =>
      "{" ++ print_member print m ++ print_members print members
  end.

(** A bound on the fuel that parsing the text of a value takes. *)
Fixpoint weigh {A} (w : A -> nat) (l : list A) : nat :=
  match l with
  | [] => 1
  | x :: l' => S (w x + weigh w l')
  end.

Fixpoint size (v : pyval) : nat :=
  match v with
  | PList items => S (weigh size items)
  | PDict members => S (weigh (fun m => size (snd m)) members)
  | _ => 1
  end.

(** What may follow a number: not a digit and not a slash. *)
Definition ends_number (rest : string) : bool :=
  match rest with
  | EmptyString => true
  | String c _ => negb (is_digit c) && negb (Ascii.eqb c "/")
  end.

Fixpoint all_digits (s : string) : bool :=
  match s with
  | EmptyString => true
  | String c rest => is_digit c && all_digits rest
  end.

(** Drop [prefix] from the front of [s]. *)
Fixpoint strip (prefix s : string) : option string :=
  match prefix, s with
  | EmptyString, _ => Some s
  | String p prefix', String c rest =>
      if Ascii.eqb p c then strip prefix' rest else None
  | String _ _, EmptyString => None
  end.

(** A member ["key":value], given the parser of values. *)
Definition parse_member (value : string -> option (pyval * string))
    (s : string) : option ((string * pyval) * string) :=
  match strip (String dquote EmptyString) s with
  | Some s1 =>
      match parse_str s1 with
      | Some (k, s2) =>
          match strip ":" s2 with
          | Some s3 =>
              match value s3 with
              | Some (x, s4) => Some ((k, x), s4)
              | None => None
              end
          | None => None
          end
      | None => None
      end
  | None => None
  end.

(** Recursive descent; [fuel] bounds the nesting and the number of
    items. *)
Fixpoint parse_value (fuel : nat) (s : string) : option (pyval * string) :=
  match fuel with
  | O => None
  | S fuel' =>
      match s with
      | EmptyString => None
      | String c rest =>
          if Ascii.eqb c "n" then
            option_map (pair PNone) (strip "ull" rest)
          else if Ascii.eqb c "t" then
            option_map (pair (PBool true)) (strip "rue" rest)
          else if Ascii.eqb c "f" then
            option_map (pair (PBool false)) (strip "alse" rest)
          else if Ascii.eqb c dquote then
            match parse_str rest with
            | Some (str, after) => Some (PStr str, after)
            | None => None
            end
          else if Ascii.eqb c "[" then
            match parse_value fuel' rest with
            | Some (x, after) =>
                match parse_items fuel' after with
                | Some (items, after') => Some (PList (x :: items), after')
                | None => None
                end
            | None => option_map (pair (PList [])) (strip "]" rest)
            end
          else if Ascii.eqb c "{" then
            match parse_member (parse_value fuel') rest with
            | Some (m, after) =>
                match parse_members fuel' after with
                | Some (members, after') =>
                    Some (PDict (m :: members), after')
                | None => None
                end
            | None => option_map (pair (PDict [])) (strip "}" rest)
            end
          else parse_number s
      end
  end
with parse_items (fuel : nat) (s : string)
  : option (list pyval * string) :=
  match fuel with
  | O => None
  | S fuel' =>
      match s with
      | EmptyString => None
      | String c rest =>
          if Ascii.eqb c "]" then Some ([], rest)
          else if Ascii.eqb c "," then
            match parse_value fuel' rest with
            | Some (x, after) =>
                match parse_items fuel' after with
                | Some (items, after') => Some (x :: items, after')
                | None => None
                end
            | None => None
            end
          else None
      end
  end
with parse_members (fuel : nat) (s : string)
  : option (list (string * pyval) * string) :=
  match fuel with
  | O => None
  | S fuel' =>
      match s with
      | EmptyString => None
      | String c rest =>
          if Ascii.eqb c "}" then Some ([], rest)
          else if Ascii.eqb c "," then
            match parse_member (parse_value fuel') rest with
            | Some (m, after) =>
                match parse_members fuel' after with
                | Some (members, after') => Some (m :: members, after')
                | None => None
                end
            | None => None
            end
          else None
      end
  end.

(** Parsing the text of [v], followed by anything that ends a number,
    gives [v] back when the fuel covers its size. *)
Definition parses_back (v : pyval) : Prop :=
  forall fuel rest,
    (size v <= fuel)%nat ->
    ends_number rest = true ->
    parse_value fuel (print v ++ rest) = Some (v, rest).

(** Twice the length of the text covers the size. *)
Definition fits (v : pyval) : Prop :=
  (size v <= 2 * String.length (print v))%nat.

Definition dumps (v : pyval) : string := print v.

(** The whole text must be one value; a dict with a repeated key is
    refused. *)
Definition loads (text : string) : Py.result pyval :=
  match parse_value (2 * String.length text) text with
  | Some (v, EmptyString) =>
      if pyval_wf v then Py.Ok v else Py.Raise Py.JSONDecodeError
  | _ => Py.Raise Py.JSONDecodeError
  end.
End RefJson.

(** ** Sample inputs *)

Module Sample.
Open Scope string_scope.

Definition record (score : Z) : pyval :=
  PDict [("mood_score", PInt score); ("harmony_ratio", PFloat (725 # 8))].

(** A [float(s)] that refuses every string. *)
Definition float_of_str (s : string) : Py.result Q :=
  Py.Raise Py.ValueError.

Definition sliders : form :=
  {| mood_choice := Steady;
     mood_notes := "calm morning";
     d_val := 50; i_val := 50; s_val := 55; c_val := 50;
     perceived_stage := skip |}.

(** An analyzer that answers with a harmony ratio of 150. *)
Definition overshooting : analyzer :=
  fun _ _ _ _ _ =>
    Py.Ok (PDict [("trait_score", PFloat 50);
                  ("harmony_ratio", PFloat 150)]).

(** An analyzer whose call raises. *)
Definition failing : analyzer :=
  fun _ _ _ _ _ => Py.Raise (Py.OtherError "core unavailable").

Definition surroundings (a : option analyzer) (file : file_state) : world :=
  {| analyze_profile := a;
     core_stage := None;
     utcnow_iso := "2025-01-01T09:00:00";
     checkin_file := file |}.
End Sample.

(** ** The two scores in binary64

    The same two functions on IEEE 754 double precision, the floats of
    Python: every operation rounds to nearest. [x ** 2] is the correctly
    rounded square. *)

Module Binary64.
Definition of_Z (z : Z) : float := PrimFloat.of_uint63 (Uint63.of_Z z).

Definition sum (vals : list float) : float :=
  fold_left PrimFloat.add vals PrimFloat.zero.

Definition len {A} (l : list A) : float := of_Z (Z.of_nat (List.length l)).

Definition max (a b : float) : float := if PrimFloat.ltb a b then b else a.

Definition min (a b : float) : float := if PrimFloat.ltb b a then b else a.

Definition compute_trait_score (traits : dict float) : float :=
  match traits with
  | [] => PrimFloat.zero
  | _ => PrimFloat.div (sum (dict_values traits)) (len traits)
  end.

Definition compute_harmony_ratio (traits : dict float) : float :=
  match traits with
  | [] => PrimFloat.zero
  | _ =>
      let vals := dict_values traits in
      let mean := PrimFloat.div (sum vals) (len vals) in
      if PrimFloat.eqb mean PrimFloat.zero then PrimFloat.zero
      else
        let variance :=
          PrimFloat.div
            (sum (map (fun v => let x := PrimFloat.sub v mean in
                                PrimFloat.mul x x) vals))
            (len vals) in
        let raw :=
          max PrimFloat.zero
            (PrimFloat.sub 100%float (PrimFloat.mul variance 2%float)) in
        max PrimFloat.zero (min 100%float raw)
  end.

(** [{"D": float(d_val), ...}] for slider integers (line 201). *)
Definition disc (d i s c : Z) : dict float :=
  [("D"%string, of_Z d); ("I"%string, of_Z i);
   ("S"%string, of_Z s); ("C"%string, of_Z c)].

(** The rational that a finite float stands for. *)
Definition to_Q (x : float) : option Q :=
  match Prim2SF x with
  | S754_zero _ => Some 0
  | S754_finite sign m e =>
      Some (inject_Z (if sign then Zneg m else Zpos m) * Qpower 2 e)
  | _ => None
  end.

(** [x] is exactly [n / 2^k], decided on the mantissa and exponent. *)
Definition is_dyadic (x : float) (n k : Z) : bool :=
  match Prim2SF x with
  | S754_zero _ => (n =? 0)%Z
  | S754_finite sign m e =>
      let v := if sign then Zneg m else Zpos m in
      if (0 <=? e + k)%Z then (Z.shiftl v (e + k) =? n)%Z
      else (v =? Z.shiftl n (- (e + k)))%Z
  | _ => false
  end.
End Binary64.

(** The rational trait set of slider integers. *)
Definition form_traits (d i s c : Z) : dict Q :=
  disc (inject_Z d) (inject_Z i) (inject_Z s) (inject_Z c).

(** The two scores of slider integers in closed form: the mean as a
    number of quarters, the harmony ratio as a number of eighths. *)
Definition score_quarters (d i s c : Z) : Z := (d + i + s + c)%Z.

Definition harmony_eighths (d i s c : Z) : Z :=
  if (d + i + s + c =? 0)%Z then 0%Z
  else
    Z.max 0
      (Z.min 800
         (800 - 4 * (d * d + i * i + s * s + c * c)
          + (d + i + s + c) * (d + i + s + c)))%Z.

(** The 21 positions of a slider. *)
Definition positions : list Z :=
  map (fun k => (5 * Z.of_nat k)%Z) (seq 0 21).

Definition agree (d i s c : Z) : bool :=
  Binary64.is_dyadic (Binary64.compute_trait_score (Binary64.disc d i s c))
    (score_quarters d i s c) 2
  && Binary64.is_dyadic
       (Binary64.compute_harmony_ratio (Binary64.disc d i s c))
       (harmony_eighths d i s c) 3.

(** ** The select boxes as the code writes them (app.py, lines 154-218) *)

(** The options of the mood select box, in display order. *)
Definition mood_options : list string :=
  ["😔 Drained"; "😐 Neutral"; "🙂 Steady"; "😄 Energized";
   "🧠 Focused & Inspired"]%string.

Definition mood_score_map : dict Z :=
  [("😔 Drained", 1%Z); ("😐 Neutral", 2%Z); ("🙂 Steady", 3%Z);
   ("😄 Energized", 4%Z); ("🧠 Focused & Inspired", 5%Z)]%string.

(** The options of the perceived-stage select box. *)
Definition stage_options : list string :=
  ["(skip)";
   "Stage 3 — Initiative vs. Guilt";
   "Stage 4 — Industry vs. Inferiority";
   "Stage 5 — Identity vs. Role Confusion";
   "Stage 6 — Intimacy vs. Isolation";
   "Stage 7 — Generativity vs. Stagnation"]%string.

(** ** Successive check-ins *)

Section Saves.
Variable json_dumps : pyval -> string.
Variable json_loads : string -> Py.result pyval.

(** [save_checkin] called once per record, in order; the first call that
    raises ends the run. *)
Fixpoint save_all (entries : list pyval) (f : file_state)
  : Py.result unit * file_state :=
  match entries with
  | [] => (Py.Ok tt, f)
  | entry :: rest =>
      match save_checkin json_dumps json_loads entry f with
      | (Py.Ok _, f') => save_all rest f'
      | (Py.Raise e, f') => (Py.Raise e, f')
      end
  end.
End Saves.

(** ** Recent history preview (app.py, lines 307-316) *)

(** [h[key]] with a string key: a mapping looks the key up, nothing else
    that JSON carries accepts a string subscript. *)
Definition py_subscript (h : pyval) (key : string) : Py.result pyval :=
  match h with
  | PDict members => dict_item members key
  | _ => Py.Raise Py.TypeError
  end.

(** [format(v, ".1f")]: numbers only. *)
Definition py_format_1f (v : pyval) : Py.result string :=
  match v with
  | PFloat q => Py.Ok (format_1f q)
  | PInt z => Py.Ok (format_1f (inject_Z z))
  | PBool b => Py.Ok (format_1f (if b then 1 else 0))
  | PStr _ => Py.Raise Py.ValueError
  | PNone | PList _ | PDict _ => Py.Raise Py.TypeError
  end.

(** What the page shows. *)
Inductive shown : Type :=
| Markdown (text : string)
| Caption (text : string).

Section Preview.
(** [str(v)] of a value that is not a string. *)
Variable py_str : pyval -> string.

(** A replacement field without format specification. *)
Definition fstring_field (v : pyval) : string :=
  match v with
  | PStr s => s
  | _ => py_str v
  end.

(** The f-string of one history line; the fields are evaluated from left
    to right. *)
Definition history_line (h : pyval) : Py.result string :=
  timestamp <- py_subscript h "timestamp" ;;
  mood <- py_subscript h "mood_label" ;;
  stage <- py_subscript h "auto_stage" ;;
  hr <- py_subscript h "harmony_ratio" ;;
  harmony <- py_format_1f hr ;;
  Py.Ok ("- **" ++ fstring_field timestamp ++ "** — Mood: "
           ++ fstring_field mood ++ ", Stage: " ++ fstring_field stage
           ++ ", Harmony: " ++ harmony ++ "%")%string.

(** The [for h in last_items] loop: what was shown before an item raises
    stays on the page. *)
Fixpoint history_loop (items : list pyval) (page : list shown)
  : list shown * Py.result unit :=
  match items with
  | [] => (page, Py.Ok tt)
  | h :: rest =>
      match history_line h with
      | Py.Ok line => history_loop rest (page ++ [Markdown line])
      | Py.Raise e => (page, Py.Raise e)
      end
  end.

Definition no_history : string :=
  "No history yet — today is your first Lite check-in.".

(** Lines 308-316 on a history that is a list, which it is whenever the
    handler gets this far: [save_checkin] has just written one. *)
Definition recent_history (history : list pyval)
  : list shown * Py.result unit :=
  match history with
  | [] => ([Caption no_history], Py.Ok tt)
  | _ => history_loop (last_items history) []
  end.
End Preview.

(** ** Properties stated with helper functions *)

(** The key that [max(traits, key=traits.get)] picks, by comparisons. *)
Definition dominant_key (d i s c : Q) : string :=
  if Py.Qltb d i then
    if Py.Qltb i s then (if Py.Qltb s c then "C"%string else "S"%string)
    else (if Py.Qltb i c then "C"%string else "I"%string)
  else
    if Py.Qltb d s then (if Py.Qltb s c then "C"%string else "S"%string)
    else (if Py.Qltb d c then "C"%string else "D"%string).




(** ** More samples *)

Module SampleMore.
Open Scope string_scope.

(** An analyzer whose harmony ratio is missing a value. *)
Definition half_answer : analyzer :=
  fun _ _ _ _ _ =>
    Py.Ok (PDict [("trait_score", PFloat 80); ("harmony_ratio", PNone)]).

(** An analyzer that answers with a trait score only. *)
Definition score_only : analyzer :=
  fun _ _ _ _ _ => Py.Ok (PDict [("trait_score", PInt 80)]).

(** A [str] for the values that are not strings. *)
Definition shown_as (v : pyval) : string := "?".

(** The record that the handler logs for the sample form. *)
Definition logged (timestamp : string) : pyval :=
  make_entry timestamp Sample.sliders (disc 50 50 55 50) (205 # 4)
    (725 # 8) "Stage 6 — Intimacy vs. Isolation".
End SampleMore.

(** * Properties *)

(** ** Arithmetic of the Python primitives *)

Section PyArith.
Import Py.

Lemma Qltb_lt (a b : Q) : Qltb a b = true <-> a < b.
Proof.
  unfold Qltb. rewrite negb_true_iff.
  destruct (Qle_bool b a) eqn:E.
  - apply Qle_bool_iff in E. split; [discriminate | intro H; exfalso; lra].
  - split; [intros _ | reflexivity].
    apply Qnot_le_lt. intro H. apply Qle_bool_iff in H. congruence.
Qed.

Lemma Qltb_ge (a b : Q) : Qltb a b = false <-> b <= a.
Proof.
  unfold Qltb. rewrite negb_false_iff. apply Qle_bool_iff.
Qed.

Lemma fold_left_Qplus (l : list Q) (a : Q) :
  fold_left Qplus l a == a + SpecWords.total l.
Proof.
  revert a. induction l as [|x l IH]; intro a; simpl.
  - lra.
  - rewrite IH. lra.
Qed.

Lemma sum_total (l : list Q) : sum l == SpecWords.total l.
Proof. unfold sum. rewrite fold_left_Qplus. lra. Qed.

Lemma total_map_ext (f g : Q -> Q) (l : list Q) :
  (forall x, f x == g x) ->
  SpecWords.total (map f l) == SpecWords.total (map g l).
Proof.
  intro H. induction l as [|x l IH]; simpl; [reflexivity|].
  rewrite IH, H. reflexivity.
Qed.

Lemma max_cases (a b : Q) :
  (a < b /\ max a b = b) \/ (b <= a /\ max a b = a).
Proof.
  unfold max. destruct (Qltb a b) eqn:E.
  - left. apply Qltb_lt in E. auto.
  - right. apply Qltb_ge in E. auto.
Qed.

Lemma min_cases (a b : Q) :
  (b < a /\ min a b = b) \/ (a <= b /\ min a b = a).
Proof.
  unfold min. destruct (Qltb b a) eqn:E.
  - left. apply Qltb_lt in E. auto.
  - right. apply Qltb_ge in E. auto.
Qed.

Lemma clamp_cases (lo hi x : Q) :
  (x <= lo /\ SpecWords.clamp lo hi x = lo)
  \/ (lo < x /\ hi <= x /\ SpecWords.clamp lo hi x = hi)
  \/ (lo < x /\ x < hi /\ SpecWords.clamp lo hi x = x).
Proof.
  unfold SpecWords.clamp.
  destruct (Qle_bool x lo) eqn:E1.
  { left. apply Qle_bool_iff in E1. auto. }
  assert (lo < x) as Hlo.
  { apply Qnot_le_lt. intro K. apply Qle_bool_iff in K. congruence. }
  destruct (Qle_bool hi x) eqn:E2.
  { right; left. apply Qle_bool_iff in E2. auto. }
  right; right. repeat split; trivial.
  apply Qnot_le_lt. intro K. apply Qle_bool_iff in K. congruence.
Qed.

(** The nested [max] and [min] of the code are one clamp. *)
Lemma max_min_clamp (x : Q) :
  max 0 (min 100 (max 0 x)) == SpecWords.clamp 0 100 x.
Proof.
  destruct (clamp_cases 0 100 x) as [[? ->]|[(? & ? & ->)|(? & ? & ->)]];
    destruct (max_cases 0 x) as [[? ->]|[? ->]]; try lra;
    match goal with
    | |- max 0 (min 100 ?y) == _ =>
        destruct (min_cases 100 y) as [[? ->]|[? ->]]; try lra;
        match goal with
        | |- max 0 ?z == _ =>
            destruct (max_cases 0 z) as [[? ->]|[? ->]]; lra
        end
    end.
Qed.

Lemma clamp_bounds (lo hi x : Q) :
  lo <= hi -> lo <= SpecWords.clamp lo hi x <= hi.
Proof.
  intro H.
  destruct (clamp_cases lo hi x) as [[? ->]|[(? & ? & ->)|(? & ? & ->)]];
    lra.
Qed.
End PyArith.

(** ** Score calculator *)

Section Scores.
Import SpecWords.

Lemma clamp_compat (lo hi x y : Q) :
  x == y -> clamp lo hi x == clamp lo hi y.
Proof.
  intro H.
  destruct (clamp_cases lo hi x) as [[? ->]|[(? & ? & ->)|(? & ? & ->)]];
    destruct (clamp_cases lo hi y) as [[? ->]|[(? & ? & ->)|(? & ? & ->)]];
    lra.
Qed.

Lemma py_mean_spec (vals : list Q) :
  Py.sum vals / Py.len vals == arithmetic_mean vals.
Proof.
  unfold arithmetic_mean, Py.len. rewrite sum_total. reflexivity.
Qed.

Lemma py_variance_spec (vals : list Q) :
  Py.sum (map (fun v => (v - Py.sum vals / Py.len vals) ^ 2) vals)
    / Py.len vals
  == population_variance vals.
Proof.
  unfold population_variance, arithmetic_mean at 1.
  rewrite length_map. unfold Py.len. rewrite sum_total.
  apply Qdiv_comp; [|reflexivity].
  apply total_map_ext. intro x.
  rewrite py_mean_spec. simpl. reflexivity.
Qed.

Lemma Qeq_bool_false (x y : Q) : ~ x == y -> Qeq_bool x y = false.
Proof.
  intro H. destruct (Qeq_bool x y) eqn:E; [|reflexivity].
  apply Qeq_bool_iff in E. contradiction.
Qed.

End Scores.

Section ScoreFacts.
Import SpecWords.

Lemma trait_score_mean (traits : dict Q) :
  traits <> [] ->
  compute_trait_score traits == arithmetic_mean (dict_values traits).
Proof.
  destruct traits as [|kv traits]; intro Hne; [congruence|].
  unfold compute_trait_score.
  rewrite <- py_mean_spec. unfold Py.len, dict_values.
  rewrite length_map. reflexivity.
Qed.

Lemma harmony_ratio_clamped (traits : dict Q) :
  traits <> [] ->
  ~ arithmetic_mean (dict_values traits) == 0 ->
  compute_harmony_ratio traits
  == clamp 0 100 (100 - 2 * population_variance (dict_values traits)).
Proof.
  destruct traits as [|kv traits]; intros Hne Hmean; [congruence|].
  unfold compute_harmony_ratio.
  set (vals := dict_values (kv :: traits)) in *.
  cbv zeta.
  rewrite Qeq_bool_false by (rewrite py_mean_spec; exact Hmean).
  rewrite max_min_clamp. apply clamp_compat.
  rewrite py_variance_spec. ring.
Qed.

Lemma harmony_ratio_zero_mean (traits : dict Q) :
  arithmetic_mean (dict_values traits) == 0 ->
  compute_harmony_ratio traits = 0.
Proof.
  destruct traits as [|kv traits]; intro Hmean; [reflexivity|].
  unfold compute_harmony_ratio.
  set (vals := dict_values (kv :: traits)) in *.
  cbv zeta.
  assert (E : Qeq_bool (Py.sum vals / Py.len vals) 0 = true).
  { apply Qeq_bool_iff. rewrite py_mean_spec. exact Hmean. }
  rewrite E. reflexivity.
Qed.
End ScoreFacts.

Section ScoreClaims.
Import SpecWords.




End ScoreClaims.

(** ** Stage suggestion *)

Section MaxBy.
Context {A : Type} (key : A -> option Q) (kq : A -> Q).

(** [max(items, key=...)] returns the first item whose key is maximal:
    everything before it is strictly smaller, nothing after it is
    greater. *)
Lemma max_loop_first_max (rest : list A) :
  forall best : A,
    (forall x, In x (best :: rest) -> key x = Some (kq x)) ->
    exists x pre post,
      max_loop key best (key best) rest = Py.Ok x
      /\ best :: rest = pre ++ x :: post
      /\ (forall y, In y pre -> kq y < kq x)
      /\ (forall y, In y post -> kq y <= kq x).
Proof.
  induction rest as [|y rest IH]; intros best Hkey.
  - exists best, [], []. simpl.
    split; [reflexivity|]. split; [reflexivity|]. split; intros ? [].
  - cbn [max_loop].
    rewrite (Hkey y) by (right; left; reflexivity).
    rewrite (Hkey best) by (left; reflexivity).
    cbn [py_gt Py.bind].
    destruct (Py.Qltb (kq best) (kq y)) eqn:E.
    + apply Qltb_lt in E.
      destruct (IH y) as (x & pre & post & Hrun & Hsplit & Hpre & Hpost).
      { intros z Hz. apply Hkey. right. exact Hz. }
      rewrite (Hkey y) in Hrun by (right; left; reflexivity).
      exists x, (best :: pre), post. split; [exact Hrun|]. split; [|split].
      * simpl. rewrite Hsplit. reflexivity.
      * intros z [<-|Hz]; [|auto].
        destruct pre as [|p pre]; simpl in Hsplit.
        -- injection Hsplit as -> _. exact E.
        -- injection Hsplit as <- _.
           specialize (Hpre y (or_introl eq_refl)). lra.
      * exact Hpost.
    + apply Qltb_ge in E.
      destruct (IH best) as (x & pre & post & Hrun & Hsplit & Hpre & Hpost).
      { intros z [<-|Hz]; apply Hkey; [left|right; right]; trivial. }
      rewrite (Hkey best) in Hrun by (left; reflexivity).
      destruct pre as [|p pre]; simpl in Hsplit.
      * injection Hsplit as <- ->.
        exists best, [], (y :: post). split; [exact Hrun|]. split; [|split].
        -- reflexivity.
        -- intros ? [].
        -- intros z [<-|Hz]; auto.
      * injection Hsplit as <- ->.
        exists x, (best :: y :: pre), post.
        split; [exact Hrun|]. split; [|split].
        -- reflexivity.
        -- intros z [<-|[<-|Hz]].
           ++ apply Hpre. left. reflexivity.
           ++ specialize (Hpre best (or_introl eq_refl)). lra.
           ++ apply Hpre. right. exact Hz.
        -- exact Hpost.
Qed.
End MaxBy.

Section StageClaims.
Open Scope string_scope.

Ltac decide_order :=
  repeat match goal with
    | |- context [Py.Qltb ?a ?b] =>
        let E := fresh "E" in
        destruct (Py.Qltb a b) eqn:E;
        [apply Qltb_lt in E | apply Qltb_ge in E];
        cbn [py_gt Py.bind max_loop]
    end;
  try reflexivity; try (exfalso; lra).

(** C6. The fallback [map_disc_to_stage] returns the table entry of the
    trait with the greatest value, the earliest of D, I, S, C on a tie;
    when D is strictly greatest it returns the label of D; the dominant
    key is always a key of the table, so the default is never used. *)
Theorem map_disc_to_stage_dominant (d i s c : Q) :
  (i <= d -> s <= d -> c <= d ->
   map_disc_to_stage d i s c = Py.Ok "Stage 4 — Initiative vs. Guilt")
  /\ (d < i -> s <= i -> c <= i ->
      map_disc_to_stage d i s c
      = Py.Ok "Stage 5 — Identity vs. Role Confusion")
  /\ (d < s -> i < s -> c <= s ->
      map_disc_to_stage d i s c = Py.Ok "Stage 6 — Intimacy vs. Isolation")
  /\ (d < c -> i < c -> s < c ->
      map_disc_to_stage d i s c
      = Py.Ok "Stage 7 — Generativity vs. Stagnation")
  /\ (i < d -> s < d -> c < d ->
      map_disc_to_stage d i s c = Py.Ok "Stage 4 — Initiative vs. Guilt")
  /\ (exists dominant label,
         py_max_by (dict_keys (disc d i s c)) (dict_get (disc d i s c))
         = Py.Ok dominant
         /\ In dominant ["D"; "I"; "S"; "C"]
         /\ dict_get stage_mapping dominant = Some label
         /\ map_disc_to_stage d i s c = Py.Ok label).
Proof.
  unfold map_disc_to_stage, py_max_by, disc.
  cbn [dict_keys map fst dict_get String.eqb Ascii.eqb Bool.eqb
       max_loop py_gt Py.bind].
  repeat split.
  - intros. decide_order.
  - intros. decide_order.
  - intros. decide_order.
  - intros. decide_order.
  - intros. decide_order.
  - destruct (Py.Qltb d i) eqn:E1; cbn [py_gt Py.bind max_loop].
    + destruct (Py.Qltb i s) eqn:E2; cbn [py_gt Py.bind max_loop].
      * destruct (Py.Qltb s c) eqn:E3; cbn [py_gt Py.bind max_loop].
        -- exists "C", "Stage 7 — Generativity vs. Stagnation".
           simpl. tauto.
        -- exists "S", "Stage 6 — Intimacy vs. Isolation".
           simpl. tauto.
      * destruct (Py.Qltb i c) eqn:E3; cbn [py_gt Py.bind max_loop].
        -- exists "C", "Stage 7 — Generativity vs. Stagnation".
           simpl. tauto.
        -- exists "I", "Stage 5 — Identity vs. Role Confusion".
           simpl. tauto.
    + destruct (Py.Qltb d s) eqn:E2; cbn [py_gt Py.bind max_loop].
      * destruct (Py.Qltb s c) eqn:E3; cbn [py_gt Py.bind max_loop].
        -- exists "C", "Stage 7 — Generativity vs. Stagnation".
           simpl. tauto.
        -- exists "S", "Stage 6 — Intimacy vs. Isolation".
           simpl. tauto.
      * destruct (Py.Qltb d c) eqn:E3; cbn [py_gt Py.bind max_loop].
        -- exists "C", "Stage 7 — Generativity vs. Stagnation".
           simpl. tauto.
        -- exists "D", "Stage 4 — Initiative vs. Guilt".
           simpl. tauto.
Qed.

Lemma map_disc_to_stage_dominant_witness :
  map_disc_to_stage 40 40 40 40 = Py.Ok "Stage 4 — Initiative vs. Guilt"
  /\ map_disc_to_stage 40 45 45 40
     = Py.Ok "Stage 5 — Identity vs. Role Confusion"
  /\ map_disc_to_stage 10 20 60 60
     = Py.Ok "Stage 6 — Intimacy vs. Isolation"
  /\ map_disc_to_stage 0 0 0 5
     = Py.Ok "Stage 7 — Generativity vs. Stagnation"
  /\ map_disc_to_stage 65 60 60 60
     = Py.Ok "Stage 4 — Initiative vs. Guilt".
Proof.
  split; [|split; [|split; [|split]]].
  - apply (proj1 (map_disc_to_stage_dominant 40 40 40 40)); lra.
  - destruct (map_disc_to_stage_dominant 40 45 45 40) as (_ & H & _).
    apply H; lra.
  - destruct (map_disc_to_stage_dominant 10 20 60 60) as (_ & _ & H & _).
    apply H; lra.
  - destruct (map_disc_to_stage_dominant 0 0 0 5) as (_ & _ & _ & H & _).
    apply H; lra.
  - destruct (map_disc_to_stage_dominant 65 60 60 60)
      as (_ & _ & _ & _ & H & _).
    apply H; lra.
Defined.
End StageClaims.

(** ** Recent history *)

Section RecentClaims.
Context {A : Type}.

Lemma slice_from_last_7 (l : list A) :
  slice_from (-7) l = skipn (List.length l - 7) l.
Proof.
  unfold slice_from. cbn [Z.ltb Z.compare].
  f_equal. lia.
Qed.

(** C9. The recent-history view is the last min(7, length) records of the
    stored log, most recent first; on a log of 10 records it lists records
    10, 9, 8, 7, 6, 5, 4 in that order. *)
Theorem last_items_most_recent_first :
  (forall history : list A,
      exists older recent,
        history = older ++ recent
        /\ List.length recent = Nat.min 7 (List.length history)
        /\ last_items history = rev recent)
  /\ (forall r1 r2 r3 r4 r5 r6 r7 r8 r9 r10 : A,
         last_items [r1; r2; r3; r4; r5; r6; r7; r8; r9; r10]
         = [r10; r9; r8; r7; r6; r5; r4]).
Proof.
  split.
  - intro history.
    exists (firstn (List.length history - 7) history),
      (skipn (List.length history - 7) history).
    split; [|split].
    + symmetry. apply firstn_skipn.
    + rewrite length_skipn. lia.
    + destruct history as [|r history]; [reflexivity|].
      unfold last_items. rewrite slice_from_last_7. reflexivity.
  - reflexivity.
Qed.
End RecentClaims.

(** ** Trait breakdown *)

Section DictFacts.
Context {V : Type}.


End DictFacts.





Section BreakdownClaims.
Open Scope string_scope.


End BreakdownClaims.

(** ** The reference codec round-trips *)

Module RefJsonFacts.
Import RefJson.
Open Scope string_scope.
Open Scope nat_scope.

Lemma append_assoc (a b c : string) : (a ++ b) ++ c = a ++ (b ++ c).
Proof. induction a as [|x a IH]; simpl; [reflexivity|now rewrite IH]. Qed.

Lemma all_digits_uint (d : Decimal.uint) :
  all_digits (NilEmpty.string_of_uint d) = true.
Proof. induction d; simpl; auto. Qed.

Lemma all_digits_dec (n : N) : all_digits (dec_of_N n) = true.
Proof.
  unfold dec_of_N, NilZero.string_of_uint.
  destruct (N.to_uint n); try reflexivity;
    apply (all_digits_uint (_ _)).
Qed.

Lemma dec_nonempty (n : N) :
  exists c s, dec_of_N n = String c s /\ is_digit c = true.
Proof.
  pose proof (all_digits_dec n) as H.
  unfold dec_of_N in *.
  destruct (NilZero.string_of_uint (N.to_uint n)) as [|c s] eqn:E.
  - exfalso. unfold NilZero.string_of_uint in E.
    destruct (N.to_uint n); discriminate.
  - exists c, s. simpl in H. apply andb_prop in H. tauto.
Qed.

Lemma span_digits_app (digits rest : string) :
  all_digits digits = true ->
  match rest with
  | EmptyString => True
  | String c _ => is_digit c = false
  end ->
  span_digits (digits ++ rest) = (digits, rest).
Proof.
  intros Hd Hrest. induction digits as [|c digits IH]; simpl in *.
  - destruct rest as [|c rest]; [reflexivity|]. simpl. now rewrite Hrest.
  - apply andb_prop in Hd as [Hc Hd]. rewrite Hc, (IH Hd). reflexivity.
Qed.

Lemma parse_N_dec (n : N) (rest : string) :
  match rest with
  | EmptyString => True
  | String c _ => is_digit c = false
  end ->
  parse_N (dec_of_N n ++ rest) = Some (n, rest).
Proof.
  intro Hrest. unfold parse_N.
  rewrite span_digits_app by (auto using all_digits_dec).
  unfold dec_of_N. rewrite NilZero.usu.
  - now rewrite DecimalN.Unsigned.of_to.
  - destruct n; simpl; [discriminate|apply DecimalPos.Unsigned.to_uint_nonnil].
Qed.

Lemma digit_not (c x : ascii) :
  is_digit c = true -> is_digit x = false -> Ascii.eqb c x = false.
Proof.
  intros Hc Hx. destruct (Ascii.eqb_spec c x) as [->|]; congruence.
Qed.

Lemma parse_Z_unsigned (c : ascii) (s : string) :
  is_digit c = true ->
  parse_Z (String c s)
  = match parse_N (String c s) with
    | Some (n, rest') => Some (Z.of_N n, rest')
    | None => None
    end.
Proof.
  intro Hc. unfold parse_Z.
  rewrite (digit_not c "-" Hc eq_refl). reflexivity.
Qed.

Lemma parse_Z_nonneg (n : N) (rest : string) :
  match rest with
  | EmptyString => True
  | String c _ => is_digit c = false
  end ->
  parse_Z (dec_of_N n ++ rest) = Some (Z.of_N n, rest).
Proof.
  intro Hrest.
  destruct (dec_nonempty n) as (c & s & E & Hc).
  pose proof (parse_N_dec n rest Hrest) as HN.
  rewrite E in *. simpl String.append in *.
  rewrite (parse_Z_unsigned c _ Hc), HN. reflexivity.
Qed.

Lemma parse_Z_print (z : Z) (rest : string) :
  match rest with
  | EmptyString => True
  | String c _ => is_digit c = false
  end ->
  parse_Z (print_Z z ++ rest) = Some (z, rest).
Proof.
  intro Hrest. destruct z as [|p|p].
  - apply (parse_Z_nonneg 0 rest Hrest).
  - apply (parse_Z_nonneg (Npos p) rest Hrest).
  - unfold print_Z.
    change (("-" ++ dec_of_N (N.pos p)) ++ rest)
      with (String "-" (dec_of_N (N.pos p) ++ rest)).
    unfold parse_Z. rewrite Ascii.eqb_refl.
    rewrite parse_N_dec by assumption. reflexivity.
Qed.

Lemma ends_number_no_digit (rest : string) :
  ends_number rest = true ->
  match rest with
  | EmptyString => True
  | String c _ => is_digit c = false
  end.
Proof.
  destruct rest as [|c rest]; simpl; [trivial|].
  intro H. apply andb_prop in H as [H _].
  now apply negb_true_iff in H.
Qed.

Lemma parse_number_int (z : Z) (rest : string) :
  ends_number rest = true ->
  parse_number (print_Z z ++ rest) = Some (PInt z, rest).
Proof.
  intro Hrest. unfold parse_number.
  rewrite parse_Z_print by (now apply ends_number_no_digit).
  destruct rest as [|c rest]; [reflexivity|].
  simpl in Hrest. apply andb_prop in Hrest as [_ H].
  apply negb_true_iff in H. now rewrite H.
Qed.

Lemma parse_number_float (q : Q) (rest : string) :
  ends_number rest = true ->
  parse_number
    (print_Z (Qnum q) ++ "/" ++ dec_of_N (Npos (Qden q)) ++ rest)
  = Some (PFloat q, rest).
Proof.
  intro Hrest. unfold parse_number.
  rewrite parse_Z_print by reflexivity.
  change ("/" ++ dec_of_N (N.pos (Qden q)) ++ rest)
    with (String "/" (dec_of_N (N.pos (Qden q)) ++ rest)).
  cbv iota beta.
  change (Ascii.eqb "/" "/") with true. cbv iota.
  rewrite parse_N_dec by (now apply ends_number_no_digit).
  destruct q. reflexivity.
Qed.

Lemma parse_str_escape (s rest : string) :
  parse_str (escape s ++ String dquote rest) = Some (s, rest).
Proof.
  induction s as [|c s IH]; simpl.
  - reflexivity.
  - destruct (Ascii.eqb c dquote) eqn:Eq; simpl.
    + rewrite IH. reflexivity.
    + destruct (Ascii.eqb c backslash) eqn:Eb; simpl.
      * rewrite IH. reflexivity.
      * rewrite Eq, Eb, IH. reflexivity.
Qed.

Lemma parse_str_print (s rest : string) :
  parse_str (escape s ++ String dquote EmptyString ++ rest)
  = Some (s, rest).
Proof. apply parse_str_escape. Qed.

(** *** One step of the parser, by leading character *)

Lemma parse_value_number (fuel : nat) (c : ascii) (s : string) :
  is_digit c || Ascii.eqb c "-" = true ->
  parse_value (S fuel) (String c s) = parse_number (String c s).
Proof.
  intro Hc. cbn [parse_value].
  repeat match goal with
    | |- context [Ascii.eqb c ?x] =>
        destruct (Ascii.eqb_spec c x) as [->|_];
        [exfalso; vm_compute in Hc; discriminate|]
    end.
  reflexivity.
Qed.

Lemma print_Z_head (z : Z) :
  exists c s, print_Z z = String c s
              /\ is_digit c || Ascii.eqb c "-" = true.
Proof.
  destruct z as [|p|p]; unfold print_Z.
  - destruct (dec_nonempty (Z.to_N 0)) as (c & s & -> & Hc).
    exists c, s. now rewrite Hc.
  - destruct (dec_nonempty (Z.to_N (Zpos p))) as (c & s & -> & Hc).
    exists c, s. now rewrite Hc.
  - eexists _, _. split; reflexivity.
Qed.

Lemma parse_value_list (fuel : nat) (rest : string) :
  parse_value (S fuel) (String "[" rest)
  = match parse_value fuel rest with
    | Some (x, after) =>
        match parse_items fuel after with
        | Some (items, after') => Some (PList (x :: items), after')
        | None => None
        end
    | None => option_map (pair (PList [])) (strip "]" rest)
    end.
Proof. reflexivity. Qed.

Lemma parse_value_dict (fuel : nat) (rest : string) :
  parse_value (S fuel) (String "{" rest)
  = match parse_member (parse_value fuel) rest with
    | Some (m, after) =>
        match parse_members fuel after with
        | Some (members, after') => Some (PDict (m :: members), after')
        | None => None
        end
    | None => option_map (pair (PDict [])) (strip "}" rest)
    end.
Proof. reflexivity. Qed.

Lemma parse_value_str (fuel : nat) (rest : string) :
  parse_value (S fuel) (String dquote rest)
  = match parse_str rest with
    | Some (str, after) => Some (PStr str, after)
    | None => None
    end.
Proof. reflexivity. Qed.

Lemma parse_value_close (fuel : nat) (rest : string) :
  parse_value fuel (String "]" rest) = None.
Proof. destruct fuel; reflexivity. Qed.

Lemma parse_items_comma (fuel : nat) (rest : string) :
  parse_items (S fuel) (String "," rest)
  = match parse_value fuel rest with
    | Some (x, after) =>
        match parse_items fuel after with
        | Some (items, after') => Some (x :: items, after')
        | None => None
        end
    | None => None
    end.
Proof. reflexivity. Qed.

Lemma parse_members_comma (fuel : nat) (rest : string) :
  parse_members (S fuel) (String "," rest)
  = match parse_member (parse_value fuel) rest with
    | Some (m, after) =>
        match parse_members fuel after with
        | Some (members, after') => Some (m :: members, after')
        | None => None
        end
    | None => None
    end.
Proof. reflexivity. Qed.

Lemma parse_member_close (value : string -> option (pyval * string))
    (rest : string) :
  parse_member value (String "}" rest) = None.
Proof. reflexivity. Qed.

Lemma parse_member_print (value : string -> option (pyval * string))
    (pr : pyval -> string) (m : string * pyval) (rest : string) :
  value (pr (snd m) ++ rest) = Some (snd m, rest) ->
  parse_member value (print_member pr m ++ rest) = Some (m, rest).
Proof.
  intro Hv. destruct m as [k x]. unfold print_member, print_str. simpl fst.
  simpl snd in *.
  change ((String dquote (escape k ++ String dquote EmptyString)
             ++ ":" ++ pr x) ++ rest)
    with (String dquote
            (((escape k ++ String dquote EmptyString) ++ ":" ++ pr x)
               ++ rest)).
  unfold parse_member.
  change (strip (String dquote EmptyString) (String dquote ?s))
    with (Some s).
  cbv iota beta.
  rewrite !append_assoc.
  change (String dquote EmptyString ++ (":" ++ pr x ++ rest))
    with (String dquote (String ":" (pr x ++ rest))).
  rewrite parse_str_escape.
  change (strip ":" (String ":" (pr x ++ rest))) with (Some (pr x ++ rest)).
  cbv iota beta. rewrite Hv. reflexivity.
Qed.

Lemma ends_number_items (l : list pyval) (rest : string) :
  ends_number (print_items print l ++ rest) = true.
Proof. destruct l; reflexivity. Qed.

Lemma ends_number_members (l : list (string * pyval)) (rest : string) :
  ends_number (print_members print l ++ rest) = true.
Proof. destruct l; reflexivity. Qed.

(** *** Parsing a printed value gives the value back *)

Lemma parse_items_print (l : list pyval) :
  Forall parses_back l ->
  forall fuel rest,
    weigh size l <= fuel ->
    parse_items fuel (print_items print l ++ rest) = Some (l, rest).
Proof.
  induction 1 as [|y l Hy _ IH]; intros fuel rest Hfuel;
    simpl in Hfuel; destruct fuel as [|fuel]; try lia.
  - reflexivity.
  - cbn [print_items].
    change (("," ++ print y ++ print_items print l) ++ rest)
      with (String "," ((print y ++ print_items print l) ++ rest)).
    rewrite parse_items_comma, append_assoc.
    rewrite Hy by (lia || apply ends_number_items).
    rewrite IH by lia. reflexivity.
Qed.

Lemma parse_members_print (l : list (string * pyval)) :
  Forall (fun m => parses_back (snd m)) l ->
  forall fuel rest,
    weigh (fun m => size (snd m)) l <= fuel ->
    parse_members fuel (print_members print l ++ rest) = Some (l, rest).
Proof.
  induction 1 as [|m l Hm _ IH]; intros fuel rest Hfuel;
    simpl in Hfuel; destruct fuel as [|fuel]; try lia.
  - reflexivity.
  - cbn [print_members].
    change (("," ++ print_member print m ++ print_members print l) ++ rest)
      with (String ","
              ((print_member print m ++ print_members print l) ++ rest)).
    rewrite parse_members_comma, append_assoc.
    rewrite (parse_member_print (parse_value fuel) print m).
    + rewrite IH by lia. reflexivity.
    + apply Hm; [lia|apply ends_number_members].
Qed.

Theorem parse_print (v : pyval) : parses_back v.
Proof.
  induction v using pyval_ind; intros fuel rest Hfuel Hrest;
    simpl in Hfuel; (destruct fuel as [|fuel]; [lia|]).
  - reflexivity.
  - destruct b; reflexivity.
  - destruct (print_Z_head z) as (c & s & E & Hc).
    pose proof (parse_number_int z rest Hrest) as HN.
    cbn [print]. rewrite E in *. simpl String.append in *.
    rewrite parse_value_number by assumption. exact HN.
  - destruct (print_Z_head (Qnum q)) as (c & s & E & Hc).
    pose proof (parse_number_float q rest Hrest) as HN.
    cbn [print]. rewrite append_assoc. rewrite E in *.
    simpl String.append in *.
    rewrite parse_value_number by assumption. exact HN.
  - cbn [print]. unfold print_str.
    change (String dquote (escape s ++ String dquote EmptyString) ++ rest)
      with (String dquote ((escape s ++ String dquote EmptyString) ++ rest)).
    rewrite parse_value_str, append_assoc.
    change (String dquote EmptyString ++ rest) with (String dquote rest).
    rewrite parse_str_escape. reflexivity.
  - destruct items as [|x items].
    + change (print (PList []) ++ rest) with (String "[" (String "]" rest)).
      rewrite parse_value_list, parse_value_close. reflexivity.
    + inversion H as [|? ? Hx Hitems]; subst.
      cbn [weigh] in Hfuel. cbn [print].
      change (("[" ++ print x ++ print_items print items) ++ rest)
        with (String "[" ((print x ++ print_items print items) ++ rest)).
      rewrite parse_value_list, append_assoc.
      rewrite Hx by (lia || apply ends_number_items).
      rewrite (parse_items_print items Hitems) by lia. reflexivity.
  - destruct members as [|m members].
    + change (print (PDict []) ++ rest) with (String "{" (String "}" rest)).
      rewrite parse_value_dict, parse_member_close. reflexivity.
    + inversion H as [|? ? Hm Hmembers]; subst.
      cbn [weigh] in Hfuel. cbn [print].
      change (("{" ++ print_member print m ++ print_members print members)
                ++ rest)
        with (String "{"
                ((print_member print m ++ print_members print members)
                   ++ rest)).
      rewrite parse_value_dict, append_assoc.
      rewrite (parse_member_print (parse_value fuel) print m).
      * rewrite (parse_members_print members Hmembers) by lia.
        reflexivity.
      * apply Hm; [lia|apply ends_number_members].
Qed.

(** *** The fuel of [loads] is enough *)

Lemma string_length_app (a b : string) :
  String.length (a ++ b) = String.length a + String.length b.
Proof. induction a as [|c a IH]; simpl; [reflexivity|now rewrite IH]. Qed.

Lemma append_empty (a : string) : a ++ EmptyString = a.
Proof. induction a as [|c a IH]; simpl; [reflexivity|now rewrite IH]. Qed.

Lemma print_Z_length (z : Z) : 1 <= String.length (print_Z z).
Proof.
  destruct (print_Z_head z) as (c & s & -> & _). simpl. lia.
Qed.

Lemma weigh_items (l : list pyval) :
  Forall fits l ->
  weigh size l + 1 <= 2 * String.length (print_items print l).
Proof.
  induction 1 as [|y l Hy _ IH]; cbn [weigh print_items].
  - simpl. lia.
  - unfold fits in Hy. rewrite !string_length_app. simpl String.length. lia.
Qed.

Lemma weigh_members (l : list (string * pyval)) :
  Forall (fun m => fits (snd m)) l ->
  weigh (fun m => size (snd m)) l + 1
  <= 2 * String.length (print_members print l).
Proof.
  induction 1 as [|m l Hm _ IH]; cbn [weigh print_members].
  - simpl. lia.
  - unfold fits in Hm. unfold print_member.
    rewrite !string_length_app. simpl String.length. lia.
Qed.

Lemma size_fits (v : pyval) : fits v.
Proof.
  induction v using pyval_ind; unfold fits.
  - simpl. lia.
  - destruct b; simpl; lia.
  - pose proof (print_Z_length z). simpl. lia.
  - pose proof (print_Z_length (Qnum q)). cbn [print size].
    rewrite string_length_app. lia.
  - simpl. lia.
  - destruct items as [|x items]; [simpl; lia|].
    inversion H as [|? ? Hx Hitems]; subst.
    pose proof (weigh_items items Hitems). unfold fits in Hx.
    cbn [print size weigh]. rewrite !string_length_app.
    simpl String.length. lia.
  - destruct members as [|m members]; [simpl; lia|].
    inversion H as [|? ? Hm Hmembers]; subst.
    pose proof (weigh_members members Hmembers). unfold fits in Hm.
    cbn [print size weigh]. unfold print_member.
    rewrite !string_length_app. simpl String.length. lia.
Qed.

(** The reference codec satisfies the two laws the store relies on. *)
Theorem loads_dumps (v : pyval) :
  pyval_wf v = true -> loads (dumps v) = Py.Ok v.
Proof.
  intro Hwf. unfold loads, dumps.
  pose proof (parse_print v (2 * String.length (print v)) EmptyString
                (size_fits v) eq_refl) as Hparse.
  rewrite append_empty in Hparse. rewrite Hparse, Hwf. reflexivity.
Qed.

Theorem loads_wf (text : string) (v : pyval) :
  loads text = Py.Ok v -> pyval_wf v = true.
Proof.
  unfold loads.
  destruct (parse_value (2 * String.length text) text)
    as [[v' [|c rest]]|]; try discriminate.
  destruct (pyval_wf v') eqn:E; [|discriminate].
  intros [= <-]. exact E.
Qed.
End RefJsonFacts.

(** ** Check-in store *)

Section StoreReads.
Variable json_loads : string -> Py.result pyval.

Lemma load_checkins_text (text : string) :
  load_checkins json_loads (Text text)
  = Py.try_except (json_loads text) (Py.Ok (PList [])).
Proof. reflexivity. Qed.

End StoreReads.


Section StoreWrites.
Variable json_dumps : pyval -> string.
Variable json_loads : string -> Py.result pyval.

(** A JSON text printed from a value parses back to that value. *)
Hypothesis loads_dumps :
  forall v, pyval_wf v = true -> json_loads (json_dumps v) = Py.Ok v.

(** What a JSON text parses to is a Python value. *)
Hypothesis loads_wf :
  forall text v, json_loads text = Py.Ok v -> pyval_wf v = true.

Lemma loaded_wf (f : file_state) (v : pyval) :
  load_checkins json_loads f = Py.Ok v -> pyval_wf v = true.
Proof.
  destruct f as [| |text]; try (intros [= <-]; reflexivity).
  rewrite load_checkins_text.
  destruct (json_loads text) as [v'|e] eqn:E; simpl.
  - intros [= <-]. eauto.
  - intros [= <-]. reflexivity.
Qed.





(** A store that parses to something other than a list makes
    [save_checkin] raise and leaves the file as it was. *)
Lemma save_checkin_on_non_list (r : pyval) (f : file_state) (v : pyval) :
  load_checkins json_loads f = Py.Ok v ->
  (forall s, v <> PList s) ->
  save_checkin json_dumps json_loads r f = (Py.Raise Py.AttributeError, f).
Proof.
  intros Hload Hv. unfold save_checkin. rewrite Hload.
  destruct v; try reflexivity. exfalso. eapply Hv. reflexivity.
Qed.
End StoreWrites.

Section StoreWitnesses.
Open Scope string_scope.


End StoreWitnesses.

(** ** The analyze action *)

Lemma compute_harmony_ratio_range (traits : dict Q) :
  0 <= compute_harmony_ratio traits <= 100.
Proof.
  destruct traits as [|kv traits]; [simpl; lra|].
  unfold compute_harmony_ratio.
  set (vals := dict_values (kv :: traits)). cbv zeta.
  destruct (Qeq_bool (Py.sum vals / Py.len vals) 0); [lra|].
  rewrite max_min_clamp. apply clamp_bounds. lra.
Qed.

Section AnalyzeClaims.
Open Scope string_scope.
Variable json_dumps : pyval -> string.
Variable json_loads : string -> Py.result pyval.
Variable float_of_str : string -> Py.result Q.

(** What the analysis step returns: the local scores, or the floats read
    from the mapping that the analyzer returned. *)
Lemma analysis_step_cases (a : option analyzer) (traits : dict Q)
    (d i s c : Q) (perceived : string) :
  analysis_step float_of_str a traits d i s c perceived
  = Py.Ok (PDict [], compute_trait_score traits,
           compute_harmony_ratio traits)
  \/ exists analyze members ts hr,
      a = Some analyze
      /\ analyze d i s c (stage_or_none perceived) = Py.Ok (PDict members)
      /\ py_float float_of_str (dict_get_or members "trait_score" (PFloat 0))
         = Py.Ok ts
      /\ py_float float_of_str
           (dict_get_or members "harmony_ratio" (PFloat 0))
         = Py.Ok hr
      /\ analysis_step float_of_str a traits d i s c perceived
         = Py.Ok (PDict members, ts, hr).
Proof.
  destruct a as [analyze|]; [|left; reflexivity].
  unfold analysis_step.
  destruct (analyze d i s c (stage_or_none perceived)) as [profile|e] eqn:E;
    [|left; reflexivity].
  destruct profile as [| | | | | |members]; try (left; reflexivity).
  cbn [Py.bind profile_get].
  destruct (py_float float_of_str
              (dict_get_or members "trait_score" (PFloat 0)))
    as [ts|e1] eqn:E1; [|left; reflexivity].
  cbn [Py.bind].
  destruct (py_float float_of_str
              (dict_get_or members "harmony_ratio" (PFloat 0)))
    as [hr|e2] eqn:E2; [|left; reflexivity].
  right. exists analyze, members, ts, hr. repeat split; trivial.
Qed.

Lemma analysis_step_local (a : option analyzer) (traits : dict Q)
    (d i s c : Q) (perceived : string) :
  a = None
  \/ (exists analyze e,
         a = Some analyze
         /\ analyze d i s c (stage_or_none perceived) = Py.Raise e) ->
  analysis_step float_of_str a traits d i s c perceived
  = Py.Ok (PDict [], compute_trait_score traits,
           compute_harmony_ratio traits).
Proof.
  intros [->|(analyze & e & -> & Hraise)]; [reflexivity|].
  unfold analysis_step. rewrite Hraise. reflexivity.
Qed.

(** C7. When the analyzer is unavailable or its call raises, the analysis
    step returns the local scores, [compute_trait_score] and
    [compute_harmony_ratio] of the traits; whatever the analyzer does,
    the step itself never raises. *)
Theorem analysis_step_falls_back (a : option analyzer) (traits : dict Q)
    (d i s c : Q) (perceived : string) :
  (a = None
   \/ (exists analyze e,
          a = Some analyze
          /\ analyze d i s c (stage_or_none perceived) = Py.Raise e) ->
   analysis_step float_of_str a traits d i s c perceived
   = Py.Ok (PDict [], compute_trait_score traits,
           compute_harmony_ratio traits))
  /\ (exists outcome,
         analysis_step float_of_str a traits d i s c perceived
         = Py.Ok outcome).
Proof.
  split.
  - apply analysis_step_local.
  - destruct (analysis_step_cases a traits d i s c perceived)
      as [H|(? & ? & ? & ? & _ & _ & _ & _ & H)]; eauto.
Qed.

Lemma assemble_entry_harmony (w : world) (f : form) (entry : pyval) :
  assemble_entry float_of_str w f = Py.Ok entry ->
  exists profile ts hr,
    analysis_step float_of_str (analyze_profile w)
      (disc (inject_Z (d_val f)) (inject_Z (i_val f))
         (inject_Z (s_val f)) (inject_Z (c_val f)))
      (inject_Z (d_val f)) (inject_Z (i_val f))
      (inject_Z (s_val f)) (inject_Z (c_val f)) (perceived_stage f)
    = Py.Ok (profile, ts, hr)
    /\ entry_float entry "harmony_ratio" = Some hr
    /\ entry_float entry "trait_score" = Some ts.
Proof.
  unfold assemble_entry. cbv zeta.
  match goal with
  | |- context [analysis_step ?fs ?a ?t ?d ?i ?s ?c ?p] =>
      destruct (analysis_step fs a t d i s c p) as [[[profile ts] hr]|e]
  end; [|discriminate].
  cbn [Py.bind].
  match goal with
  | |- context [Py.bind ?m _] => destruct m as [stage|e]
  end; [|discriminate].
  cbn [Py.bind]. intros [= <-].
  exists profile, ts, hr. repeat split; reflexivity.
Qed.

Lemma analyze_and_log_entry (w : world) (f : form) (entry : pyval)
    (file : file_state) :
  analyze_and_log json_dumps json_loads float_of_str w f
  = (Py.Ok entry, file) ->
  assemble_entry float_of_str w f = Py.Ok entry
  /\ save_checkin json_dumps json_loads entry (checkin_file w)
     = (Py.Ok tt, file).
Proof.
  unfold analyze_and_log.
  destruct (assemble_entry float_of_str w f) as [entry'|e];
    [|discriminate].
  destruct (save_checkin json_dumps json_loads entry' (checkin_file w))
    as [[[]|e] file'] eqn:E; [|discriminate].
  intros [= <- <-]. split; [reflexivity|exact E].
Qed.

(** C4, as the code has it. The harmony ratio of a logged record is the
    local [compute_harmony_ratio], which lies between 0 and 100: always
    so when the analyzer is absent or its call raises; or else it is the
    float read from the "harmony_ratio" entry of the mapping that the
    analyzer returned (0 when the key is absent), as it is and without a
    clamp. *)
Theorem logged_harmony_ratio (w : world) (f : form) (entry : pyval)
    (file : file_state) :
  analyze_and_log json_dumps json_loads float_of_str w f
  = (Py.Ok entry, file) ->
  let d := inject_Z (d_val f) in
  let i := inject_Z (i_val f) in
  let s := inject_Z (s_val f) in
  let c := inject_Z (c_val f) in
  exists hr,
    entry_float entry "harmony_ratio" = Some hr
    /\ ((hr = compute_harmony_ratio (disc d i s c) /\ 0 <= hr <= 100)
        \/ (exists analyze members,
               analyze_profile w = Some analyze
               /\ analyze d i s c (stage_or_none (perceived_stage f))
                  = Py.Ok (PDict members)
               /\ py_float float_of_str
                    (dict_get_or members "harmony_ratio" (PFloat 0))
                  = Py.Ok hr))
    /\ (analyze_profile w = None
        \/ (exists analyze e,
               analyze_profile w = Some analyze
               /\ analyze d i s c (stage_or_none (perceived_stage f))
                  = Py.Raise e) ->
        hr = compute_harmony_ratio (disc d i s c) /\ 0 <= hr <= 100).
Proof.
  intros Hlog d i s c.
  apply analyze_and_log_entry in Hlog as [Hentry _].
  apply assemble_entry_harmony in Hentry
    as (profile & ts & hr & Hstep & Hhr & _).
  fold d i s c in Hstep.
  exists hr. split; [exact Hhr|]. split.
  - destruct (analysis_step_cases (analyze_profile w) (disc d i s c)
                d i s c (perceived_stage f))
      as [Hlocal|(analyze & members & ts' & hr' & Ha & Hcall & _ & Hf & Hr)].
    + left.
      assert (hr = compute_harmony_ratio (disc d i s c)) as ->
          by congruence.
      split; [reflexivity|apply compute_harmony_ratio_range].
    + right. assert (hr = hr') as -> by congruence.
      exists analyze, members. auto.
  - intro Habsent.
    pose proof (analysis_step_local (analyze_profile w)
                  (disc d i s c) d i s c (perceived_stage f) Habsent)
      as Hlocal.
    assert (hr = compute_harmony_ratio (disc d i s c)) as ->
        by congruence.
    split; [reflexivity|apply compute_harmony_ratio_range].
Qed.
End AnalyzeClaims.

Section AnalyzeWitnesses.
Open Scope string_scope.

Lemma analysis_step_falls_back_witness :
  analysis_step Sample.float_of_str None (disc 50 50 55 50) 50 50 55 50
    skip
  = Py.Ok (PDict [], compute_trait_score (disc 50 50 55 50),
           compute_harmony_ratio (disc 50 50 55 50))
  /\ analysis_step Sample.float_of_str (Some Sample.failing)
       (disc 50 50 55 50) 50 50 55 50 skip
     = Py.Ok (PDict [], compute_trait_score (disc 50 50 55 50),
              compute_harmony_ratio (disc 50 50 55 50)).
Proof.
  split.
  - apply (proj1 (analysis_step_falls_back Sample.float_of_str None
                    (disc 50 50 55 50) 50 50 55 50 skip)).
    left. reflexivity.
  - apply (proj1 (analysis_step_falls_back Sample.float_of_str
                    (Some Sample.failing)
                    (disc 50 50 55 50) 50 50 55 50 skip)).
    right. exists Sample.failing, (Py.OtherError "core unavailable").
    split; reflexivity.
Defined.

(** With an analyzer that answers 150, the logged record carries 150. *)
Lemma logged_harmony_ratio_above_100 :
  exists entry file,
    analyze_and_log RefJson.dumps RefJson.loads Sample.float_of_str
      (Sample.surroundings (Some Sample.overshooting) Missing)
      Sample.sliders
    = (Py.Ok entry, file)
    /\ load_checkins RefJson.loads file = Py.Ok (PList [entry])
    /\ entry_float entry "harmony_ratio" = Some 150
    /\ ~ (0 <= 150 <= 100).
Proof.
  eexists _, _. split; [vm_compute; reflexivity|].
  split; [vm_compute; reflexivity|].
  split; [reflexivity|]. intros [_ H]. revert H. apply Qlt_not_le.
  reflexivity.
Qed.

Lemma logged_harmony_ratio_witness :
  exists entry file hr,
    analyze_and_log RefJson.dumps RefJson.loads Sample.float_of_str
      (Sample.surroundings (Some Sample.failing) Missing) Sample.sliders
    = (Py.Ok entry, file)
    /\ entry_float entry "harmony_ratio" = Some hr
    /\ 0 <= hr <= 100.
Proof.
  eexists _, _.
  destruct (logged_harmony_ratio RefJson.dumps RefJson.loads
              Sample.float_of_str
              (Sample.surroundings (Some Sample.failing) Missing)
              Sample.sliders _ _ eq_refl)
    as (hr & Hhr & _ & Hrange).
  exists hr. split; [reflexivity|]. split; [exact Hhr|].
  apply Hrange. right.
  exists Sample.failing, (Py.OtherError "core unavailable").
  split; reflexivity.
Defined.
End AnalyzeWitnesses.

(** ** The rational model against binary64 *)

Lemma form_mean (d i s c : Z) :
  SpecWords.arithmetic_mean (dict_values (form_traits d i s c))
  == (d + i + s + c)%Z # 4.
Proof.
  unfold SpecWords.arithmetic_mean, form_traits, disc. simpl.
  rewrite (Qmake_Qdiv (d + i + s + c) 4).
  rewrite !inject_Z_plus. field.
Qed.

Lemma compute_trait_score_closed (d i s c : Z) :
  compute_trait_score (form_traits d i s c) == score_quarters d i s c # 4.
Proof.
  rewrite trait_score_mean by discriminate.
  apply form_mean.
Qed.

Lemma form_variance (d i s c : Z) :
  100 - 2 * SpecWords.population_variance (dict_values (form_traits d i s c))
  == (800 - 4 * (d * d + i * i + s * s + c * c)
      + (d + i + s + c) * (d + i + s + c))%Z # 8.
Proof.
  unfold SpecWords.population_variance.
  set (m := SpecWords.arithmetic_mean (dict_values (form_traits d i s c))).
  assert (Hm : m == (inject_Z d + inject_Z i + inject_Z s + inject_Z c) / 4).
  { unfold m. rewrite form_mean, Qmake_Qdiv, !inject_Z_plus. reflexivity. }
  set (n := (800 - 4 * (d * d + i * i + s * s + c * c)
             + (d + i + s + c) * (d + i + s + c))%Z).
  unfold SpecWords.arithmetic_mean, form_traits, disc. simpl.
  rewrite Hm, (Qmake_Qdiv n 8).
  subst n. unfold Z.sub.
  repeat (rewrite ?inject_Z_plus, ?inject_Z_opp, ?inject_Z_mult).
  change (inject_Z 4) with 4. change (inject_Z 8) with 8.
  change (inject_Z 800) with 800.
  field.
Qed.

Lemma clamp_eighths (n : Z) :
  SpecWords.clamp 0 100 (n # 8) == Z.max 0 (Z.min 800 n) # 8.
Proof.
  destruct (clamp_cases 0 100 (n # 8))
    as [[H ->]|[(H1 & H2 & ->)|(H1 & H2 & ->)]];
    unfold Qle, Qlt, Qeq in *; simpl in *.
  - rewrite Z.max_l by lia. reflexivity.
  - rewrite Z.min_l, Z.max_r by lia. reflexivity.
  - rewrite Z.min_r, Z.max_r by lia. reflexivity.
Qed.

Lemma compute_harmony_ratio_closed (d i s c : Z) :
  compute_harmony_ratio (form_traits d i s c)
  == harmony_eighths d i s c # 8.
Proof.
  unfold harmony_eighths.
  destruct (Z.eqb_spec (d + i + s + c) 0) as [E|E].
  - rewrite harmony_ratio_zero_mean.
    + reflexivity.
    + rewrite form_mean, E. reflexivity.
  - rewrite harmony_ratio_clamped.
    + rewrite <- clamp_eighths. apply clamp_compat, form_variance.
    + discriminate.
    + rewrite form_mean. intro H. apply E.
      unfold Qeq in H. simpl in H. lia.
Qed.

Lemma two_pow_nonzero (z : Z) : ~ 2 ^ z == 0.
Proof. apply Qpower_not_0. discriminate. Qed.

(** The decision on mantissa and exponent is about the rational value. *)
Lemma is_dyadic_to_Q (x : float) (n k : Z) :
  Binary64.is_dyadic x n k = true ->
  exists q, Binary64.to_Q x = Some q /\ q == inject_Z n / 2 ^ k.
Proof.
  unfold Binary64.is_dyadic, Binary64.to_Q.
  destruct (Prim2SF x) as [sign| | |sign m e]; try discriminate.
  - intro H. apply Z.eqb_eq in H. subst n.
    exists 0. split; [reflexivity|].
    unfold Qdiv. change (inject_Z 0) with 0. ring.
  - set (v := if sign then Z.neg m else Z.pos m).
    pose proof (two_pow_nonzero k) as Hk.
    pose proof (two_pow_nonzero e) as He.
    destruct (Z.leb_spec 0 (e + k)) as [Hpos|Hneg]; intro H;
      apply Z.eqb_eq in H; (eexists; split; [reflexivity|]).
    + rewrite Z.shiftl_mul_pow2 in H by exact Hpos.
      rewrite <- H, inject_Z_mult, Zpower_Qpower by exact Hpos.
      change (inject_Z 2) with 2.
      rewrite Qpower_plus by discriminate.
      field; repeat split; assumption.
    + rewrite Z.shiftl_mul_pow2 in H by lia.
      rewrite H, inject_Z_mult, Zpower_Qpower by lia.
      change (inject_Z 2) with 2.
      rewrite Qpower_opp, Qpower_plus by discriminate.
      field; repeat split; assumption.
Qed.

Lemma slider_position (z : Z) : slider_value z -> In z positions.
Proof.
  intros [Hrange Hmod]. unfold positions. apply in_map_iff.
  exists (Z.to_nat (z / 5)). split.
  - rewrite Z2Nat.id by (apply Z.div_pos; lia).
    symmetry. apply Z.div_exact; [lia|exact Hmod].
  - apply in_seq. split; [lia|].
    assert (z / 5 <= 20)%Z by (apply Z.div_le_upper_bound; lia).
    lia.
Qed.

(** The comparison succeeds at each of the 21^4 slider settings. *)
Lemma all_agree :
  forallb (fun d => forallb (fun i => forallb (fun s =>
    forallb (fun c => agree d i s c) positions) positions) positions)
    positions
  = true.
Proof. vm_compute. reflexivity. Qed.

(** X26. On every trait set that the sliders can produce, the two
    scores
    computed in binary64 are finite and are exactly the rationals of the
    model: no operation rounds. *)
Theorem binary64_scores_exact (d i s c : Z) :
  slider_value d -> slider_value i -> slider_value s -> slider_value c ->
  (exists q,
      Binary64.to_Q (Binary64.compute_trait_score (Binary64.disc d i s c))
      = Some q
      /\ q == compute_trait_score (form_traits d i s c))
  /\ (exists q,
         Binary64.to_Q
           (Binary64.compute_harmony_ratio (Binary64.disc d i s c))
         = Some q
         /\ q == compute_harmony_ratio (form_traits d i s c)).
Proof.
  intros Hd Hi Hs Hc.
  pose proof all_agree as H.
  rewrite forallb_forall in H.
  specialize (H d (slider_position d Hd)).
  rewrite forallb_forall in H.
  specialize (H i (slider_position i Hi)).
  rewrite forallb_forall in H.
  specialize (H s (slider_position s Hs)).
  rewrite forallb_forall in H.
  specialize (H c (slider_position c Hc)).
  unfold agree in H. apply andb_prop in H as [Hscore Hharmony].
  split.
  - destruct (is_dyadic_to_Q _ _ _ Hscore) as (q & Hq & E).
    exists q. split; [exact Hq|].
    rewrite E, compute_trait_score_closed, (Qmake_Qdiv _ 4). reflexivity.
  - destruct (is_dyadic_to_Q _ _ _ Hharmony) as (q & Hq & E).
    exists q. split; [exact Hq|].
    rewrite E, compute_harmony_ratio_closed, (Qmake_Qdiv _ 8). reflexivity.
Qed.

Lemma binary64_scores_exact_witness :
  exists q,
    Binary64.to_Q
      (Binary64.compute_harmony_ratio (Binary64.disc 50 50 55 50))
    = Some q
    /\ q == compute_harmony_ratio (form_traits 50 50 55 50).
Proof.
  apply (binary64_scores_exact 50 50 55 50);
    (split; [lia|reflexivity]).
Defined.

(** * Further properties of the code *)

(** ** Score calculator *)

Section ScoreExtras.
Import SpecWords.



























End ScoreExtras.

(** ** Trait breakdown *)

Section BreakdownExtras.
Open Scope string_scope.













End BreakdownExtras.

(** ** Percentages of the breakdown as printed *)

Section PercentExtras.
Import SpecWords.
Open Scope string_scope.
Open Scope Q_scope.


Lemma round_half_even_integer (n : Z) (q : Q) :
  q == inject_Z n -> round_half_even q = n.
Proof.
  intro E. unfold round_half_even. cbv zeta.
  assert (Hfloor : Qfloor q = n).
  { rewrite (Qfloor_comp _ _ E). apply Qfloor_Z. }
  rewrite Hfloor.
  destruct (Qcompare_spec (q - inject_Z n) (1 # 2)) as [H|H|H];
    try reflexivity; exfalso; lra.
Qed.










End PercentExtras.

(** ** Stage suggestion *)

Section StageExtras.
Open Scope string_scope.

Lemma py_max_by_disc (d i s c : Q) :
  py_max_by (dict_keys (disc d i s c)) (dict_get (disc d i s c))
  = Py.Ok (dominant_key d i s c).
Proof.
  unfold py_max_by, disc, dominant_key.
  cbn [dict_keys map fst dict_get String.eqb Ascii.eqb Bool.eqb
       max_loop py_gt Py.bind].
  destruct (Py.Qltb d i); cbn [py_gt Py.bind max_loop].
  - destruct (Py.Qltb i s); cbn [py_gt Py.bind max_loop].
    + destruct (Py.Qltb s c); reflexivity.
    + destruct (Py.Qltb i c); reflexivity.
  - destruct (Py.Qltb d s); cbn [py_gt Py.bind max_loop].
    + destruct (Py.Qltb s c); reflexivity.
    + destruct (Py.Qltb d c); reflexivity.
Qed.

Lemma map_disc_to_stage_key (d i s c : Q) :
  map_disc_to_stage d i s c
  = Py.Ok (dict_get_or stage_mapping (dominant_key d i s c) stage_default).
Proof.
  unfold map_disc_to_stage. rewrite py_max_by_disc. reflexivity.
Qed.

Lemma Qltb_monotone (g : Q -> Q) :
  (forall x y, x < y <-> g x < g y) ->
  forall a b, Py.Qltb (g a) (g b) = Py.Qltb a b.
Proof.
  intros Hg a b. destruct (Py.Qltb a b) eqn:E.
  - apply Qltb_lt in E. apply Hg in E.
    destruct (Py.Qltb (g a) (g b)) eqn:E'; [reflexivity|].
    apply Qltb_ge in E'. lra.
  - apply Qltb_ge in E.
    destruct (Py.Qltb (g a) (g b)) eqn:E'; [|reflexivity].
    apply Qltb_lt in E'. apply Hg in E'. lra.
Qed.

(** X11. The suggested stage depends on the order of the four values only:
    applying one strictly increasing function to all of them, a positive
    rescaling or a shift for instance, does not change it. *)
Theorem map_disc_to_stage_order_only (g : Q -> Q) (d i s c : Q) :
  (forall x y, x < y <-> g x < g y) ->
  map_disc_to_stage (g d) (g i) (g s) (g c) = map_disc_to_stage d i s c.
Proof.
  intro Hg. rewrite !map_disc_to_stage_key. unfold dominant_key.
  rewrite !(Qltb_monotone g Hg). reflexivity.
Qed.

Lemma map_disc_to_stage_order_only_witness :
  map_disc_to_stage (2 * 40 + 10) (2 * 60 + 10) (2 * 20 + 10) (2 * 30 + 10)
  = map_disc_to_stage 40 60 20 30.
Proof.
  apply (map_disc_to_stage_order_only (fun x => 2 * x + 10) 40 60 20 30).
  intros x y. split; intro H; lra.
Defined.





Lemma in_strings (s : string) (l : list string) :
  In s l <-> existsb (String.eqb s) l = true.
Proof.
  rewrite existsb_exists. split.
  - intro H. exists s. split; [exact H|apply String.eqb_refl].
  - intros (x & Hx & E). apply String.eqb_eq in E. now subst.
Qed.

(** X13. The suggestion of the fallback is one of the options of the
    perceived-stage select box exactly when D is not the trait it picked:
    the label it gives for D, "Stage 4 — Initiative vs. Guilt", is not an
    option of that box, so for a day led by D the suggested stage never
    equals the stage the user can choose. *)
Theorem suggested_stage_among_options (d i s c : Q) (stage : string) :
  map_disc_to_stage d i s c = Py.Ok stage ->
  (In stage stage_options <-> ~ (i <= d /\ s <= d /\ c <= d)).
Proof.
  rewrite map_disc_to_stage_key. intros [= <-].
  rewrite in_strings. unfold dominant_key.
  destruct (Py.Qltb d i) eqn:E1;
    [apply Qltb_lt in E1|apply Qltb_ge in E1].
  - destruct (Py.Qltb i s) eqn:E2;
      [apply Qltb_lt in E2|apply Qltb_ge in E2].
    + destruct (Py.Qltb s c) eqn:E3;
        [apply Qltb_lt in E3|apply Qltb_ge in E3];
        (split; [intros _ (H1 & H2 & H3); lra|intros _; reflexivity]).
    + destruct (Py.Qltb i c) eqn:E3;
        [apply Qltb_lt in E3|apply Qltb_ge in E3];
        (split; [intros _ (H1 & H2 & H3); lra|intros _; reflexivity]).
  - destruct (Py.Qltb d s) eqn:E2;
      [apply Qltb_lt in E2|apply Qltb_ge in E2].
    + destruct (Py.Qltb s c) eqn:E3;
        [apply Qltb_lt in E3|apply Qltb_ge in E3];
        (split; [intros _ (H1 & H2 & H3); lra|intros _; reflexivity]).
    + destruct (Py.Qltb d c) eqn:E3;
        [apply Qltb_lt in E3|apply Qltb_ge in E3].
      * split; [intros _ (H1 & H2 & H3); lra|intros _; reflexivity].
      * split; [intro H; vm_compute in H; discriminate|].
        intro H. exfalso. apply H. repeat split; assumption.
Qed.

Lemma suggested_stage_among_options_witness :
  ~ In "Stage 4 — Initiative vs. Guilt" stage_options.
Proof.
  intro H.
  apply (suggested_stage_among_options 60 40 40 40 _ eq_refl) in H.
  apply H. split; [|split]; discriminate.
Defined.
End StageExtras.

(** ** Check-in store *)

Section StoreExtras.
Variable json_dumps : pyval -> string.
Variable json_loads : string -> Py.result pyval.

Lemma load_checkins_total (f : file_state) :
  exists v, load_checkins json_loads f = Py.Ok v.
Proof.
  destruct f as [| |text]; try (eexists; reflexivity).
  rewrite load_checkins_text.
  destruct (json_loads text); eexists; reflexivity.
Qed.

Lemma save_checkin_cases (r : pyval) (f : file_state) :
  (exists s,
      load_checkins json_loads f = Py.Ok (PList s)
      /\ save_checkin json_dumps json_loads r f
         = (Py.Ok tt, Text (json_dumps (PList (s ++ [r])))))
  \/ (exists v,
         load_checkins json_loads f = Py.Ok v
         /\ (forall s, v <> PList s)
         /\ save_checkin json_dumps json_loads r f
            = (Py.Raise Py.AttributeError, f)).
Proof.
  destruct (load_checkins_total f) as [v Hload].
  unfold save_checkin. rewrite Hload.
  destruct v; try (right; eexists; split; [reflexivity|];
                   split; [discriminate|reflexivity]).
  left. eexists. split; reflexivity.
Qed.



(** X15. A store that parses to something other than a list stays broken:
    every run of one or more [save_checkin] calls raises AttributeError at
    the first call and leaves the file untouched, so the page cannot
    repair it. *)
Theorem non_list_store_stays_broken
    (f : file_state) (v : pyval) (entries : list pyval) :
  load_checkins json_loads f = Py.Ok v ->
  (forall s, v <> PList s) ->
  entries <> [] ->
  save_all json_dumps json_loads entries f
  = (Py.Raise Py.AttributeError, f).
Proof.
  intros Hload Hv Hne.
  destruct entries as [|r rest]; [contradiction|].
  cbn [save_all].
  rewrite (save_checkin_on_non_list json_dumps json_loads r f v Hload Hv).
  reflexivity.
Qed.

(** A JSON text printed from a value parses back to that value. *)
Hypothesis loads_dumps :
  forall v, pyval_wf v = true -> json_loads (json_dumps v) = Py.Ok v.

(** What a JSON text parses to is a Python value. *)
Hypothesis loads_wf :
  forall text v, json_loads text = Py.Ok v -> pyval_wf v = true.

Lemma wf_app (s rs : list pyval) :
  pyval_wf (PList s) = true -> Forall (fun r => pyval_wf r = true) rs ->
  pyval_wf (PList (s ++ rs)) = true.
Proof.
  simpl. intros Hs Hrs. rewrite forallb_app, Hs. simpl.
  apply forallb_forall. now apply Forall_forall.
Qed.

Lemma load_after_save (s : list pyval) :
  pyval_wf (PList s) = true ->
  load_checkins json_loads (Text (json_dumps (PList s))) = Py.Ok (PList s).
Proof.
  intro Hwf. rewrite load_checkins_text, loads_dumps by exact Hwf.
  reflexivity.
Qed.

End StoreExtras.

Section StoreExtraWitnesses.
Open Scope string_scope.

Lemma non_list_store_stays_broken_witness :
  save_all RefJson.dumps RefJson.loads
    [Sample.record 1; Sample.record 2] (Text "{}")
  = (Py.Raise Py.AttributeError, Text "{}").
Proof.
  apply (non_list_store_stays_broken RefJson.dumps RefJson.loads
           (Text "{}") (PDict [])).
  - vm_compute. reflexivity.
  - discriminate.
  - discriminate.
Defined.

End StoreExtraWitnesses.

(** ** The analyze action *)

Section AnalyzeExtras.
Open Scope string_scope.
Variable json_dumps : pyval -> string.
Variable json_loads : string -> Py.result pyval.
Variable float_of_str : string -> Py.result Q.

(** X17. The fallback of the analysis step is all or nothing. When the
    analyzer returns something that is not a mapping, or a mapping one of
    whose two scores [float] refuses, both scores are the local ones and
    the profile is the empty mapping: a score of the analyzer that did
    convert is discarded with the other. *)
Theorem analysis_step_all_or_nothing (analyze : analyzer) (traits : dict Q)
    (d i s c : Q) (perceived : string) (profile : pyval) :
  analyze d i s c (stage_or_none perceived) = Py.Ok profile ->
  (forall members, profile <> PDict members)
  \/ (exists members e,
         profile = PDict members
         /\ (py_float float_of_str
               (dict_get_or members "trait_score" (PFloat 0)) = Py.Raise e
             \/ py_float float_of_str
                  (dict_get_or members "harmony_ratio" (PFloat 0))
                = Py.Raise e)) ->
  analysis_step float_of_str (Some analyze) traits d i s c perceived
  = Py.Ok (PDict [], compute_trait_score traits,
           compute_harmony_ratio traits).
Proof.
  intros Hcall Hbad. unfold analysis_step. rewrite Hcall.
  destruct Hbad as [Hnot|(members & e & -> & [Hts|Hhr])].
  - destruct profile; try reflexivity. exfalso. now eapply Hnot.
  - cbn [Py.bind profile_get]. rewrite Hts. reflexivity.
  - cbn [Py.bind profile_get].
    destruct (py_float float_of_str
                (dict_get_or members "trait_score" (PFloat 0)));
      [|reflexivity].
    cbn [Py.bind]. rewrite Hhr. reflexivity.
Qed.

(** X18. A score that the mapping of the analyzer does not carry is 0.0,
    not the local score: with "harmony_ratio" absent the step returns the
    converted "trait_score" and a harmony ratio of 0, with "trait_score"
    absent a trait score of 0 and the converted "harmony_ratio". *)
Theorem analysis_step_missing_key (analyze : analyzer) (traits : dict Q)
    (d i s c : Q) (perceived : string) (members : dict pyval) (q : Q) :
  analyze d i s c (stage_or_none perceived) = Py.Ok (PDict members) ->
  (dict_get members "harmony_ratio" = None ->
   py_float float_of_str (dict_get_or members "trait_score" (PFloat 0))
   = Py.Ok q ->
   analysis_step float_of_str (Some analyze) traits d i s c perceived
   = Py.Ok (PDict members, q, 0))
  /\ (dict_get members "trait_score" = None ->
      py_float float_of_str (dict_get_or members "harmony_ratio" (PFloat 0))
      = Py.Ok q ->
      analysis_step float_of_str (Some analyze) traits d i s c perceived
      = Py.Ok (PDict members, 0, q)).
Proof.
  intro Hcall. unfold analysis_step. rewrite Hcall.
  cbn [Py.bind profile_get]. split.
  - intros Hmissing Hts. rewrite Hts. cbn [Py.bind].
    unfold dict_get_or at 1. rewrite Hmissing. reflexivity.
  - intros Hmissing Hhr.
    unfold dict_get_or at 1. rewrite Hmissing. cbn [py_float Py.bind].
    rewrite Hhr. reflexivity.
Qed.



(** The record that the handler assembles is one that [make_entry]
    builds from the form. *)
Lemma assemble_entry_shape (w : world) (f : form) (entry : pyval) :
  assemble_entry float_of_str w f = Py.Ok entry ->
  exists score hr stage,
    entry
    = make_entry (utcnow_iso w) f
        (disc (inject_Z (d_val f)) (inject_Z (i_val f))
           (inject_Z (s_val f)) (inject_Z (c_val f)))
        score hr stage.
Proof.
  unfold assemble_entry. cbv zeta.
  match goal with
  | |- context [analysis_step ?fs ?a ?t ?d ?i ?s ?c ?p] =>
      destruct (analysis_step fs a t d i s c p) as [[[profile ts] hr]|e]
  end; [|discriminate].
  cbn [Py.bind].
  match goal with
  | |- context [Py.bind ?m _] => destruct m as [stage|e]
  end; [|discriminate].
  cbn [Py.bind]. intros [= <-]. eauto.
Qed.

Lemma make_entry_wf (timestamp : string) (f : form) (d i s c : Q)
    (score hr : Q) (stage : string) :
  pyval_wf (make_entry timestamp f (disc d i s c) score hr stage) = true.
Proof.
  unfold make_entry. destruct (stage_or_none (perceived_stage f));
    reflexivity.
Qed.



(** A JSON text printed from a value parses back to that value. *)
Hypothesis loads_dumps :
  forall v, pyval_wf v = true -> json_loads (json_dumps v) = Py.Ok v.

(** What a JSON text parses to is a Python value. *)
Hypothesis loads_wf :
  forall text v, json_loads text = Py.Ok v -> pyval_wf v = true.

End AnalyzeExtras.

Section AnalyzeExtraWitnesses.
Open Scope string_scope.

Lemma analysis_step_all_or_nothing_witness :
  analysis_step Sample.float_of_str (Some SampleMore.half_answer)
    (disc 50 50 55 50) 50 50 55 50 skip
  = Py.Ok (PDict [], compute_trait_score (disc 50 50 55 50),
           compute_harmony_ratio (disc 50 50 55 50)).
Proof.
  apply (analysis_step_all_or_nothing Sample.float_of_str
           SampleMore.half_answer (disc 50 50 55 50) 50 50 55 50 skip
           (PDict [("trait_score", PFloat 80); ("harmony_ratio", PNone)])).
  - reflexivity.
  - right. eexists _, Py.TypeError. split; [reflexivity|].
    right. reflexivity.
Defined.

Lemma analysis_step_missing_key_witness :
  analysis_step Sample.float_of_str (Some SampleMore.score_only)
    (disc 50 50 55 50) 50 50 55 50 skip
  = Py.Ok (PDict [("trait_score", PInt 80)], 80, 0).
Proof.
  apply (proj1 (analysis_step_missing_key Sample.float_of_str
                  SampleMore.score_only (disc 50 50 55 50) 50 50 55 50 skip
                  [("trait_score", PInt 80)] 80 eq_refl));
    reflexivity.
Defined.


End AnalyzeExtraWitnesses.

(** ** Mood select box *)

Section MoodExtras.
Open Scope string_scope.

(** X21. The mood lookup cannot fail: every option of the mood select box
    is a key of [mood_score_map], and its score is its rank in the box,
    from 1 for the first option to 5 for the last; a label that is not an
    option raises KeyError. *)
Theorem mood_score_is_rank (label : string) :
  (forall n, nth_error mood_options n = Some label ->
             dict_item mood_score_map label = Py.Ok (Z.of_nat n + 1)%Z)
  /\ (~ In label mood_options ->
      dict_item mood_score_map label = Py.Raise Py.KeyError)
  /\ (forall m : mood,
         In (mood_label m) mood_options
         /\ dict_item mood_score_map (mood_label m)
            = Py.Ok (mood_score m)).
Proof.
  split; [|split].
  - intros n Hn.
    do 5 (destruct n as [|n]; [injection Hn as <-; reflexivity|]).
    destruct n; discriminate.
  - intro Hnot. unfold dict_item, mood_score_map.
    cbn [dict_get].
    repeat match goal with
      | |- context [String.eqb label ?k] =>
          destruct (String.eqb_spec label k) as [->|_];
          [exfalso; apply Hnot; apply in_strings; reflexivity|]
      end.
    reflexivity.
  - intros []; split; try reflexivity; apply in_strings; reflexivity.
Qed.

Lemma mood_score_is_rank_witness :
  dict_item mood_score_map "🙂 Steady" = Py.Ok 3%Z
  /\ dict_item mood_score_map "Tired" = Py.Raise Py.KeyError.
Proof.
  split.
  - apply (proj1 (mood_score_is_rank "🙂 Steady") 2%nat). reflexivity.
  - apply (proj1 (proj2 (mood_score_is_rank "Tired"))).
    intro H. apply in_strings in H. discriminate.
Defined.
End MoodExtras.

(** ** Recent history preview *)

Section PreviewExtras.
Open Scope string_scope.
Open Scope list_scope.
Variable py_str : pyval -> string.

(** The loop only ever adds to the page. *)
Lemma history_loop_page (items : list pyval) :
  forall page, exists more outcome,
    history_loop py_str items page = (page ++ more, outcome).
Proof.
  induction items as [|h rest IH]; intro page; cbn [history_loop].
  - exists [], (Py.Ok tt). now rewrite app_nil_r.
  - destruct (history_line py_str h) as [line|e].
    + destruct (IH (page ++ [Markdown line])) as (more & outcome & ->).
      exists (Markdown line :: more), outcome.
      now rewrite <- app_assoc.
    + exists [], (Py.Raise e). now rewrite app_nil_r.
Qed.

Lemma history_loop_lines (items : list pyval) (lines : list string) :
  Forall2 (fun h line => history_line py_str h = Py.Ok line) items lines ->
  forall (rest : list pyval) (page : list shown),
    history_loop py_str (items ++ rest) page
    = history_loop py_str rest (page ++ map Markdown lines).
Proof.
  induction 1 as [|h line items lines Hline _ IH]; intros rest page.
  - simpl. now rewrite app_nil_r.
  - cbn [app history_loop map]. rewrite Hline, IH, <- app_assoc.
    reflexivity.
Qed.

Lemma last_items_app (A : Type) (older recent : list A) :
  recent <> [] ->
  (List.length recent <= 7)%nat ->
  older = [] \/ List.length recent = 7%nat ->
  last_items (older ++ recent) = rev recent.
Proof.
  intros Hne Hlen Hfull.
  assert (Hslice : slice_from (-7) (older ++ recent) = recent).
  { rewrite slice_from_last_7, length_app.
    destruct Hfull as [->|Hseven].
    - simpl. replace (List.length recent - 7)%nat with 0%nat by lia.
      reflexivity.
    - rewrite Hseven, Nat.add_sub, skipn_app, Nat.sub_diag.
      rewrite skipn_all. reflexivity. }
  unfold last_items. rewrite Hslice.
  destruct (older ++ recent) eqn:E; [|reflexivity].
  apply app_eq_nil in E as [_ ->]. contradiction.
Qed.

Lemma last_items_newest_first (A : Type) (older newer : list A) (x : A) :
  (List.length newer < 7)%nat ->
  exists rest, last_items (older ++ x :: newer) = rev newer ++ x :: rest.
Proof.
  intro Hlen.
  assert (Hcut : exists pre,
             slice_from (-7) (older ++ x :: newer) = pre ++ x :: newer).
  { rewrite slice_from_last_7, length_app. cbn [List.length].
    destruct (Nat.le_gt_cases (List.length older + S (List.length newer)) 7)
      as [Hshort|Hlong].
    - replace (_ - 7)%nat with 0%nat by lia. exists older. reflexivity.
    - exists (skipn (List.length older + S (List.length newer) - 7) older).
      rewrite skipn_app.
      replace (_ - 7 - List.length older)%nat with 0%nat by lia.
      reflexivity. }
  destruct Hcut as [pre Hcut].
  exists (rev pre). unfold last_items. rewrite Hcut.
  destruct (older ++ x :: newer) eqn:E.
  - apply app_eq_nil in E as [_ E]. discriminate.
  - rewrite rev_app_distr. cbn [rev]. rewrite <- app_assoc. reflexivity.
Qed.

Lemma recent_history_nonempty (history : list pyval) :
  history <> [] ->
  recent_history py_str history
  = history_loop py_str (last_items history) [].
Proof. destruct history; [contradiction|reflexivity]. Qed.

Lemma snoc_not_nil (A : Type) (l l' : list A) (x : A) : l ++ x :: l' <> [].
Proof. intro E. apply app_eq_nil in E as [_ E]. discriminate. Qed.

Lemma logged_record_renders_aux (timestamp : string) (f : form)
    (traits : dict Q) (score hr : Q) (stage : string) :
  history_line py_str (make_entry timestamp f traits score hr stage)
  = Py.Ok ("- **" ++ timestamp ++ "** — Mood: "
             ++ mood_label (mood_choice f) ++ ", Stage: " ++ stage
             ++ ", Harmony: " ++ format_1f hr ++ "%")%string.
Proof. reflexivity. Qed.

(** X22. The handler writes every key that the preview reads: a record
    built by the handler renders to a history line that carries its
    timestamp, mood label, suggested stage and harmony ratio with one
    decimal, whatever the form and the scores are. *)
Theorem logged_record_renders (timestamp : string) (f : form)
    (traits : dict Q) (score hr : Q) (stage : string) :
  history_line py_str (make_entry timestamp f traits score hr stage)
  = Py.Ok ("- **" ++ timestamp ++ "** — Mood: "
             ++ mood_label (mood_choice f) ++ ", Stage: " ++ stage
             ++ ", Harmony: " ++ format_1f hr ++ "%")%string.
Proof. apply logged_record_renders_aux. Qed.

(** X23. When each of the last seven records (all of them when there are
    fewer) renders, the preview shows exactly their lines, the most recent
    first, and ends normally; records older than these are never read, so
    a malformed one among them does no harm. *)
Theorem recent_history_shows_recent
    (older recent : list pyval) (lines : list string) :
  recent <> [] ->
  (List.length recent <= 7)%nat ->
  older = [] \/ List.length recent = 7%nat ->
  Forall2 (fun h line => history_line py_str h = Py.Ok line) recent lines ->
  recent_history py_str (older ++ recent)
  = (map Markdown (rev lines), Py.Ok tt).
Proof.
  intros Hne Hlen Hfull Hlines.
  assert (Hrev : Forall2 (fun h line => history_line py_str h = Py.Ok line)
                   (rev recent) (rev lines)).
  { clear Hne Hlen Hfull.
    induction Hlines as [|h line items ls Hline _ IH]; [constructor|].
    cbn [rev]. apply Forall2_app; [exact IH|]. repeat constructor.
    exact Hline. }
  rewrite recent_history_nonempty.
  2:{ intro E. apply app_eq_nil in E as [_ ->]. contradiction. }
  rewrite (last_items_app _ older recent Hne Hlen Hfull).
  rewrite <- (app_nil_r (rev recent)).
  rewrite (history_loop_lines _ _ Hrev). reflexivity.
Qed.

(** What makes a record fail to render. *)
Lemma history_line_raises (h : pyval) :
  ((forall members, h <> PDict members) ->
   history_line py_str h = Py.Raise Py.TypeError)
  /\ (forall members key,
         h = PDict members ->
         In key ["timestamp"; "mood_label"; "auto_stage"; "harmony_ratio"] ->
         dict_get members key = None ->
         history_line py_str h = Py.Raise Py.KeyError).
Proof.
  split.
  - intro Hnot. destruct h; try reflexivity. exfalso. now eapply Hnot.
  - intros members key -> Hkey Hmissing.
    unfold history_line. cbn [py_subscript]. unfold dict_item.
    destruct Hkey as [<-|[<-|[<-|[<-|[]]]]].
    + rewrite Hmissing. reflexivity.
    + destruct (dict_get members "timestamp"); [|reflexivity].
      cbn [Py.bind]. rewrite Hmissing. reflexivity.
    + destruct (dict_get members "timestamp"); [|reflexivity].
      cbn [Py.bind].
      destruct (dict_get members "mood_label"); [|reflexivity].
      cbn [Py.bind]. rewrite Hmissing. reflexivity.
    + destruct (dict_get members "timestamp"); [|reflexivity].
      cbn [Py.bind].
      destruct (dict_get members "mood_label"); [|reflexivity].
      cbn [Py.bind].
      destruct (dict_get members "auto_stage"); [|reflexivity].
      cbn [Py.bind]. rewrite Hmissing. reflexivity.
Qed.

(** X24. One record among the last seven that is not a mapping, or lacks
    one of the four keys the line reads, ends the preview with TypeError,
    respectively KeyError: the lines of the records newer than it are on
    the page, the older ones are not shown. *)
Theorem recent_history_stops_at_bad_record
    (older newer : list pyval) (bad : pyval) (lines : list string) :
  (List.length newer < 7)%nat ->
  Forall2 (fun h line => history_line py_str h = Py.Ok line) newer lines ->
  ((forall members, bad <> PDict members) ->
   recent_history py_str (older ++ bad :: newer)
   = (map Markdown (rev lines), Py.Raise Py.TypeError))
  /\ (forall members key,
         bad = PDict members ->
         In key ["timestamp"; "mood_label"; "auto_stage"; "harmony_ratio"] ->
         dict_get members key = None ->
         recent_history py_str (older ++ bad :: newer)
         = (map Markdown (rev lines), Py.Raise Py.KeyError)).
Proof.
  intros Hlen Hlines.
  assert (Hrev : Forall2 (fun h line => history_line py_str h = Py.Ok line)
                   (rev newer) (rev lines)).
  { clear Hlen.
    induction Hlines as [|h line items ls Hline _ IH]; [constructor|].
    cbn [rev]. apply Forall2_app; [exact IH|]. repeat constructor.
    exact Hline. }
  assert (Hstop : forall e,
             history_line py_str bad = Py.Raise e ->
             recent_history py_str (older ++ bad :: newer)
             = (map Markdown (rev lines), Py.Raise e)).
  { intros e Hbad.
    destruct (last_items_newest_first _ older newer bad Hlen)
      as [rest Hlast].
    rewrite recent_history_nonempty by apply snoc_not_nil.
    rewrite Hlast, (history_loop_lines _ _ Hrev).
    cbn [history_loop app]. rewrite Hbad. reflexivity. }
  destruct (history_line_raises bad) as [Htype Hkey].
  split.
  - intro Hnot. apply Hstop, Htype, Hnot.
  - intros members key Hbad Hin Hmissing.
    apply Hstop. exact (Hkey members key Hbad Hin Hmissing).
Qed.

Variable json_dumps : pyval -> string.
Variable json_loads : string -> Py.result pyval.
Variable float_of_str : string -> Py.result Q.

(** A JSON text printed from a value parses back to that value. *)
Hypothesis loads_dumps :
  forall v, pyval_wf v = true -> json_loads (json_dumps v) = Py.Ok v.

(** What a JSON text parses to is a Python value. *)
Hypothesis loads_wf :
  forall text v, json_loads text = Py.Ok v -> pyval_wf v = true.

(** X25. After a click that succeeded, the store loads as a list whose
    last element is the record of this click, and the preview opens with
    the line of that record, whatever the older records are like. *)
Theorem preview_after_click (w : world) (f : form) (entry : pyval)
    (file : file_state) :
  analyze_and_log json_dumps json_loads float_of_str w f
  = (Py.Ok entry, file) ->
  exists s line page outcome,
    load_checkins json_loads (checkin_file w) = Py.Ok (PList s)
    /\ load_checkins json_loads file = Py.Ok (PList (s ++ [entry]))
    /\ history_line py_str entry = Py.Ok line
    /\ recent_history py_str (s ++ [entry])
       = (Markdown line :: page, outcome).
Proof.
  intro Hclick.
  destruct (analyze_and_log_entry json_dumps json_loads float_of_str
              w f entry file Hclick) as [Hentry Hsave].
  destruct (assemble_entry_shape float_of_str w f entry Hentry)
    as (score & hr & stage & Hshape).
  destruct (save_checkin_cases json_dumps json_loads entry (checkin_file w))
    as [(s & Hload & Hsave')|(v & _ & _ & Hsave')];
    rewrite Hsave' in Hsave; [|discriminate].
  injection Hsave as <-.
  assert (Hline : exists line, history_line py_str entry = Py.Ok line).
  { rewrite Hshape. eexists. apply logged_record_renders_aux. }
  destruct Hline as [line Hline].
  destruct (last_items_newest_first _ s [] entry) as [rest Hlast];
    [simpl; lia|].
  destruct (history_loop_page rest [Markdown line])
    as (more & outcome & Hloop).
  exists s, line, more, outcome.
  split; [exact Hload|]. split; [|split; [exact Hline|]].
  - apply (load_after_save json_dumps json_loads loads_dumps).
    apply wf_app; [|constructor; [|constructor]].
    + exact (loaded_wf json_loads loads_wf _ _ Hload).
    + rewrite Hshape. apply make_entry_wf.
  - rewrite recent_history_nonempty by apply snoc_not_nil.
    rewrite Hlast. cbn [rev app history_loop].
    rewrite Hline. exact Hloop.
Qed.
End PreviewExtras.

Section PreviewExtraWitnesses.
Open Scope string_scope.
Open Scope list_scope.

Lemma recent_history_shows_recent_witness :
  exists lines,
    recent_history SampleMore.shown_as
      ([PInt 3; Sample.record 1]
         ++ map SampleMore.logged ["d1"; "d2"; "d3"; "d4"; "d5"; "d6"; "d7"])
    = (map Markdown (rev lines), Py.Ok tt).
Proof.
  eexists.
  apply (recent_history_shows_recent SampleMore.shown_as
           [PInt 3; Sample.record 1]
           (map SampleMore.logged ["d1"; "d2"; "d3"; "d4"; "d5"; "d6"; "d7"])).
  - discriminate.
  - simpl. lia.
  - right. reflexivity.
  - repeat (apply Forall2_cons; [reflexivity|]). apply Forall2_nil.
Defined.

Lemma recent_history_stops_at_bad_record_witness :
  exists lines,
    recent_history SampleMore.shown_as
      ([SampleMore.logged "d1"; Sample.record 1; SampleMore.logged "d2";
        SampleMore.logged "d3"])
    = (map Markdown (rev lines), Py.Raise Py.KeyError).
Proof.
  eexists.
  apply (proj2 (recent_history_stops_at_bad_record SampleMore.shown_as
                  [SampleMore.logged "d1"]
                  [SampleMore.logged "d2"; SampleMore.logged "d3"]
                  (Sample.record 1) _ ltac:(simpl; lia)
                  ltac:(repeat (apply Forall2_cons; [reflexivity|]);
                        apply Forall2_nil))
          _ "timestamp" eq_refl).
  - simpl. tauto.
  - reflexivity.
Defined.

Lemma preview_after_click_witness :
  exists entry line page outcome,
    history_line SampleMore.shown_as entry = Py.Ok line
    /\ recent_history SampleMore.shown_as ([Sample.record 1] ++ [entry])
       = (Markdown line :: page, outcome).
Proof.
  destruct (preview_after_click SampleMore.shown_as
              RefJson.dumps RefJson.loads Sample.float_of_str
              RefJsonFacts.loads_dumps RefJsonFacts.loads_wf
              (Sample.surroundings None
                 (Text (RefJson.dumps (PList [Sample.record 1]))))
              Sample.sliders _ _ eq_refl)
    as (s & line & page & outcome & Hload & _ & Hline & Hshow).
  assert (s = [Sample.record 1]) as ->.
  { vm_compute in Hload. now injection Hload as <-. }
  eexists _, line, page, outcome. split; [exact Hline|exact Hshow].
Defined.
End PreviewExtraWitnesses.
